(** * Vite-audio-recorder: the recording-session controllers

    A shallow embedding of the two React components of the repository that
    drive a wavesurfer.js RecordPlugin:

    - [AudioRecorderApp] (src/unnamed/part_000, imported by src/App.jsx as
      components/AudioRecorderApp and mounted there): sub-second elapsed
      time taken from the plugin's record-progress notifications, a fixed
      30 s limit in the "limited" mode, a finalize path deferred by
      [setTimeout(.., 100)];
    - [Recorder] (src/unnamed/part_001, imported as components/Recorder):
      whole-second elapsed time, an optional [maxDuration] prop, a
      [setInterval] timer.

    Each component is a reactive machine.  Its React state, its refs and the
    browser timers it owns form a record [St]; every handler is an [Action]
    that returns the next state together with the calls it forwards to its
    collaborators (the RecordPlugin, the WaveSurfer view, the browser).
    React renders synchronously between events, so a handler always reads
    the state left by the previous event.

    JavaScript numbers are modelled exactly, whole seconds as [Z] and
    fractional times as [Q]; this is what the code computes as long as its
    whole numbers stay below 2^53. *)

From Stdlib Require Import QArith Qround.
From stdpp Require Import base strings pretty gmap list.

Open Scope Z_scope.

(* ===================================================================== *)
(** * Handlers as actions *)
(* ===================================================================== *)

Section Actions.
Context {St Call : Type}.

(** A handler: next state and the calls forwarded, oldest first. *)
Definition Action : Type := St → St * list Call.

Definition skip : Action := λ s, (s, []).
Definition call (c : Call) : Action := λ s, (s, [c]).
Definition set (f : St → St) : Action := λ s, (f s, []).
Definition seq (a b : Action) : Action :=
  λ s, let '(s1, o1) := a s in
       let '(s2, o2) := b s1 in
       (s2, o1 ++ o2).
Definition when (c : St → bool) (a : Action) : Action :=
  λ s, if c s then a s else skip s.

(** Delivering a list of events one after the other. *)
Fixpoint run {E : Type} (step : E → Action) (evs : list E) : Action :=
  match evs with
  | [] => skip
  | e :: rest => seq (step e) (run step rest)
  end.

(** One round of the collaborators answering the calls of the previous
    round: [respond c] lists the notifications that call [c] triggers.
    The result is the state after them and the calls they made. *)
Definition answer {E : Type} (step : E → Action) (respond : Call → list E)
    (so : St * list Call) : St * list Call :=
  run step (flat_map respond (snd so)) (fst so).
End Actions.

Arguments Action : clear implicits.
Declare Scope action_scope.
Delimit Scope action_scope with act.
Bind Scope action_scope with Action.
Notation "a ;; b" := (seq a b)
  (at level 100, b at level 200, right associativity) : action_scope.

(* ===================================================================== *)
(** * JavaScript arithmetic and values *)
(* ===================================================================== *)

(** [Math.trunc]: towards zero. *)
Definition Qtrunc (x : Q) : Z :=
  if Qle_bool 0 x then Qfloor x else Qceiling x.

(** The [%] operator on numbers: the remainder has the sign of [x]. *)
Definition js_rem (x y : Q) : Q :=
  (x - y * inject_Z (Qtrunc (x / y)))%Q.

(** Truthiness of a prop that is [null] or a number: [null] and [0] are
    falsy. *)
Definition truthy (n : option Z) : bool :=
  match n with
  | Some d => negb (d =? 0)
  | None => false
  end.

(** The encoded recording handed over by the plugin on record-end. *)
Inductive Blob := blob (id : nat).

(** [URL.createObjectURL(blob)]. *)
Inductive Url := createObjectURL (b : Blob).

(** How many elements of a list pass a test. *)
Definition count {A : Type} (p : A → bool) (l : list A) : nat :=
  length (List.filter p l).

(* ===================================================================== *)
(** * The session of the specification *)
(* ===================================================================== *)

Module Session.
Inductive State := Idle | Recording | Paused | Finished.
Inductive Command := start | pause | resume | stop | reset.

(** A transition table: [None] where the table lists nothing. *)
Definition Table := State → Command → option State.

(** The documented table: Idle --start--> Recording,
    Recording --pause--> Paused, Paused --resume--> Recording,
    Recording/Paused --stop--> Finished, Finished --reset--> Idle. *)
Definition documented : Table := λ st c,
  match st, c with
  | Idle, start => Some Recording
  | Recording, pause => Some Paused
  | Paused, resume => Some Recording
  | Recording, stop => Some Finished
  | Paused, stop => Some Finished
  | Finished, reset => Some Idle
  | _, _ => None
  end.

(** A command that the table does not list leaves the state unchanged. *)
Definition apply (t : Table) (st : State) (c : Command) : State :=
  default st (t st c).

Definition fold (t : Table) (cs : list Command) : State :=
  fold_left (apply t) cs Idle.


(** The seconds field of "m:ss": exactly two decimal digits. *)
Definition digit (d : Z) : Ascii.ascii :=
  Ascii.ascii_of_nat (48 + Z.to_nat d).
Definition two_digits (r : Z) : string :=
  String (digit (r / 10)) (String (digit (r mod 10)) EmptyString).

(** floor(s/60), a colon, s mod 60 on two digits. *)
Definition minutes_seconds (s : Z) : string :=
  pretty (s / 60) +:+ ":" +:+ two_digits (s mod 60).
End Session.

(* ===================================================================== *)
(** * AudioRecorderApp (src/unnamed/part_000) *)
(* ===================================================================== *)

Module AudioRecorderApp.

(** [formatTime], applied by the view to the fractional [duration] and
    [currentTime]. *)
Definition formatTime (seconds : Q) : string :=
  let mins := Qfloor (seconds / 60) in
  let secs := Qfloor (js_rem seconds 60) in
  pretty mins +:+ ":" +:+ (if secs <? 10 then "0" else "") +:+ pretty secs.

Inductive Mode := LIMITED | UNLIMITED.
Inductive RecorderState := idle | recording | paused | finished.

(** 30 seconds limit for the limited mode. *)
Definition maxDuration : Q := 30.

(** What the component calls on its collaborators. *)
Inductive Call :=
| plugin_startRecording (mimeType : string)
| plugin_pauseRecording
| plugin_resumeRecording
| plugin_stopRecording
| ws_create (m : Mode)
| ws_destroy
| ws_empty
| ws_load (url : Url)
| ws_playPause
| window_setTimeout (ms : Z)
| console_error (err : string)
| window_alert.

(** The [useState] cells, the two refs ([true]: [current] is not null) and
    the continuations the browser holds for the component: the [await]s of
    [startRecording] not yet settled and the [setTimeout] callbacks of
    [stopRecording] not yet run. *)
Record St := mkSt {
  recorderState : RecorderState;
  duration : Q;
  currentTime : Q;
  mode : Mode;
  recordedUrl : option Url;
  isPlaying : bool;
  wavesurferRef : bool;
  recordPluginRef : bool;
  awaitingStart : nat;
  pendingTimeouts : nat
}.

Definition setRecorderState (v : RecorderState) (s : St) : St :=
  mkSt v (duration s) (currentTime s) (mode s) (recordedUrl s) (isPlaying s)
       (wavesurferRef s) (recordPluginRef s) (awaitingStart s) (pendingTimeouts s).
Definition setDuration (v : Q) (s : St) : St :=
  mkSt (recorderState s) v (currentTime s) (mode s) (recordedUrl s) (isPlaying s)
       (wavesurferRef s) (recordPluginRef s) (awaitingStart s) (pendingTimeouts s).
Definition setCurrentTime (v : Q) (s : St) : St :=
  mkSt (recorderState s) (duration s) v (mode s) (recordedUrl s) (isPlaying s)
       (wavesurferRef s) (recordPluginRef s) (awaitingStart s) (pendingTimeouts s).
Definition setMode (v : Mode) (s : St) : St :=
  mkSt (recorderState s) (duration s) (currentTime s) v (recordedUrl s) (isPlaying s)
       (wavesurferRef s) (recordPluginRef s) (awaitingStart s) (pendingTimeouts s).
Definition setRecordedUrl (v : option Url) (s : St) : St :=
  mkSt (recorderState s) (duration s) (currentTime s) (mode s) v (isPlaying s)
       (wavesurferRef s) (recordPluginRef s) (awaitingStart s) (pendingTimeouts s).
Definition setIsPlaying (v : bool) (s : St) : St :=
  mkSt (recorderState s) (duration s) (currentTime s) (mode s) (recordedUrl s) v
       (wavesurferRef s) (recordPluginRef s) (awaitingStart s) (pendingTimeouts s).
Definition setRefs (ws plugin : bool) (s : St) : St :=
  mkSt (recorderState s) (duration s) (currentTime s) (mode s) (recordedUrl s)
       (isPlaying s) ws plugin (awaitingStart s) (pendingTimeouts s).
Definition setAwaitingStart (v : nat) (s : St) : St :=
  mkSt (recorderState s) (duration s) (currentTime s) (mode s) (recordedUrl s)
       (isPlaying s) (wavesurferRef s) (recordPluginRef s) v (pendingTimeouts s).
Definition setPendingTimeouts (v : nat) (s : St) : St :=
  mkSt (recorderState s) (duration s) (currentTime s) (mode s) (recordedUrl s)
       (isPlaying s) (wavesurferRef s) (recordPluginRef s) (awaitingStart s) v.

Definition Handler : Type := Action St Call.

Definition mode_eqb (a b : Mode) : bool :=
  match a, b with
  | LIMITED, LIMITED | UNLIMITED, UNLIMITED => true
  | _, _ => false
  end.

(** The state of the first render, before the effect has run. *)
Definition first_render : St :=
  mkSt idle 0 0 LIMITED None false false false 0 0.

(** ** The effect that creates WaveSurfer and the RecordPlugin *)

(** Body of the effect (the container is attached when it runs). *)
Definition effect_body : Handler :=
  (when wavesurferRef (call ws_destroy) ;;
   (λ s, call (ws_create (mode s)) s) ;;
   set (setRefs true true))%act.

(** Its cleanup, run before the effect re-runs and on unmount. *)
Definition effect_cleanup : Handler :=
  when wavesurferRef (call ws_destroy).

(** ** Actions *)

(** What a call into the browser does: it returns, or it throws (as
    [MediaRecorder.isTypeSupported] does where [MediaRecorder] is not
    defined). *)
Inductive Outcome := Returns (b : bool) | Throws (err : string).

Section Browser.
(** [MediaRecorder.isTypeSupported]. *)
Variable isTypeSupported : string → Outcome.

(** [startRecording], up to its [await].  The query of the mime type sits
    inside the [try]: when it throws, the [catch] block logs the error and
    no start is forwarded. *)
Definition startRecording : Handler :=
  when recordPluginRef
    match isTypeSupported "audio/webm" with
    | Returns supported =>
        (let mimeType := if supported then "audio/webm" else "audio/mp4" in
         call (plugin_startRecording mimeType) ;;
         set (λ s, setAwaitingStart (S (awaitingStart s)) s))%act
    | Throws err => call (console_error err)
    end.
End Browser.

(** The rest of the [try] block, once the awaited promise is fulfilled. *)
Definition startRecording_fulfilled : Handler :=
  (set (setRecorderState recording) ;;
   set (setRecordedUrl None) ;;
   set (setDuration 0))%act.

(** The [catch] block, when the awaited promise is rejected. *)
Definition startRecording_rejected (err : string) : Handler :=
  call (console_error err).

Definition pauseRecording : Handler :=
  when recordPluginRef
    (call plugin_pauseRecording ;;
     set (setRecorderState paused))%act.

Definition resumeRecording : Handler :=
  when recordPluginRef
    (call plugin_resumeRecording ;;
     set (setRecorderState recording))%act.

(** [stopRecording] only schedules the finalize callback. *)
Definition stopRecording : Handler :=
  when recordPluginRef
    (call (window_setTimeout 100) ;;
     set (λ s, setPendingTimeouts (S (pendingTimeouts s)) s))%act.

(** The callback given to [setTimeout]. *)
Definition stopRecording_timeout : Handler :=
  (when recordPluginRef (call plugin_stopRecording) ;;
   set (setRecorderState finished))%act.

Definition deleteRecording : Handler :=
  (when wavesurferRef (call ws_empty) ;;
   set (setRecorderState idle) ;;
   set (setDuration 0) ;;
   set (setCurrentTime 0) ;;
   set (setRecordedUrl None) ;;
   set (setIsPlaying false))%act.

Definition togglePlayback : Handler :=
  when wavesurferRef (call ws_playPause).

Definition handleUpload : Handler := call window_alert.

(** [onChange] of a mode radio, followed by the re-run of the effect that
    depends on [mode]. *)
Definition selectMode (m : Mode) : Handler :=
  (deleteRecording ;;
   when (λ s, negb (mode_eqb m (mode s)))
     (set (setMode m) ;;
      effect_cleanup ;;
      effect_body))%act.

(** ** Notifications *)

Definition on_record_progress (time : Q) : Handler :=
  let currentSecs := (time / 1000)%Q in
  (set (setDuration currentSecs) ;;
   when (λ s, mode_eqb (mode s) LIMITED && Qle_bool maxDuration currentSecs)
     stopRecording)%act.

Definition on_record_end (b : Blob) : Handler :=
  let url := createObjectURL b in
  (set (setRecordedUrl (Some url)) ;;
   call (ws_load url))%act.

Definition on_timeupdate (time : Q) : Handler := set (setCurrentTime time).
Definition on_finish : Handler := set (setIsPlaying false).
Definition on_play : Handler := set (setIsPlaying true).
Definition on_pause : Handler := set (setIsPlaying false).

(** ** The view: which control is offered in which state *)

Inductive Control :=
| RecordButton | StopButton | PauseButton | ResumeButton | DeleteButton
| PlayButton | UploadButton | ModeRadio (m : Mode).

(** The conditions of the JSX; a radio fires [onChange] only when it is
    not the checked one. *)
Definition rendered (c : Control) (s : St) : bool :=
  match c, recorderState s with
  | RecordButton, idle => true
  | StopButton, recording => true
  | PauseButton, recording => true
  | ResumeButton, paused => true
  | DeleteButton, (recording | paused | finished) => true
  | PlayButton, (paused | finished) => true
  | UploadButton, finished => true
  | ModeRadio m, _ => negb (mode_eqb m (mode s))
  | _, _ => false
  end.

Section Machine.
Variable isTypeSupported : string → Outcome.

Definition onClick (c : Control) : Handler :=
  match c with
  | RecordButton => startRecording isTypeSupported
  | StopButton => stopRecording
  | PauseButton => pauseRecording
  | ResumeButton => resumeRecording
  | DeleteButton => deleteRecording
  | PlayButton => togglePlayback
  | UploadButton => handleUpload
  | ModeRadio m => selectMode m
  end.

(** A click reaches the handler only through a rendered control. *)
Definition click (c : Control) : Handler := when (rendered c) (onClick c).

Inductive Event :=
| Mount
| Click (c : Control)
| StartFulfilled
| StartRejected (err : string)
| TimeoutFired
| RecordProgress (time : Q)
| RecordEnd (b : Blob)
| Timeupdate (time : Q)
| Finish
| Play
| Pause.

(** A continuation runs only if the browser holds one. *)
Definition step (e : Event) : Handler :=
  match e with
  | Mount => effect_body
  | Click c => click c
  | StartFulfilled =>
      when (λ s, negb (Nat.eqb (awaitingStart s) 0))
        (set (λ s, setAwaitingStart (Nat.pred (awaitingStart s)) s) ;;
         startRecording_fulfilled)
  | StartRejected err =>
      when (λ s, negb (Nat.eqb (awaitingStart s) 0))
        (set (λ s, setAwaitingStart (Nat.pred (awaitingStart s)) s) ;;
         startRecording_rejected err)
  | TimeoutFired =>
      when (λ s, negb (Nat.eqb (pendingTimeouts s) 0))
        (set (λ s, setPendingTimeouts (Nat.pred (pendingTimeouts s)) s) ;;
         stopRecording_timeout)
  | RecordProgress time => on_record_progress time
  | RecordEnd b => on_record_end b
  | Timeupdate time => on_timeupdate time
  | Finish => on_finish
  | Play => on_play
  | Pause => on_pause
  end%act.

End Machine.

(** The mounted component: the first render followed by its effect. *)
Definition mounted : St := fst (effect_body first_render).

(** ** The session the component presents *)

Definition session (s : St) : Session.State :=
  match recorderState s with
  | idle => Session.Idle
  | recording => Session.Recording
  | paused => Session.Paused
  | finished => Session.Finished
  end.

Definition control_of (c : Session.Command) : Control :=
  match c with
  | Session.start => RecordButton
  | Session.pause => PauseButton
  | Session.resume => ResumeButton
  | Session.stop => StopButton
  | Session.reset => DeleteButton
  end.

(** The table the view offers: the documented one, with the delete button
    also offered while recording and while paused, and no stop button
    while paused. *)
Definition offered : Session.Table := λ st c,
  match st, c with
  | Session.Idle, Session.start => Some Session.Recording
  | Session.Recording, Session.pause => Some Session.Paused
  | Session.Paused, Session.resume => Some Session.Recording
  | Session.Recording, Session.stop => Some Session.Finished
  | (Session.Recording | Session.Paused | Session.Finished), Session.reset =>
      Some Session.Idle
  | _, _ => None
  end.

Section Commands.
(** A browser that has [MediaRecorder]: the answer of [isTypeSupported]. *)
Variable webmSupported : bool.
(** The recording the plugin hands over when it is stopped. *)
Variable artifact : Blob.

Definition isTypeSupported : string → Outcome := λ _, Returns webmSupported.

(** Modelled from the spec: the CaptureDevice of section 6, which is
    wavesurfer's RecordPlugin and not part of the repository, together with
    the browser's timer.  A cooperative device: the start promise is
    fulfilled, the 100 ms timeout elapses, a stopped plugin emits record-end
    ("completed(artifact) exactly once per recording cycle"). *)
Definition respond (c : Call) : list Event :=
  match c with
  | plugin_startRecording _ => [StartFulfilled]
  | window_setTimeout _ => [TimeoutFired]
  | plugin_stopRecording => [RecordEnd artifact]
  | _ => []
  end.

(** A command of the session: the click, then the device's answers until
    nothing is outstanding (timeout, then stop, then record-end). *)
Definition settle (so : St * list Call) : St * list Call :=
  let step := step isTypeSupported in
  answer step respond (answer step respond (answer step respond so)).

Definition exec (s : St) (c : Session.Command) : St :=
  fst (settle (click isTypeSupported (control_of c) s)).

Definition exec_all (cs : list Session.Command) : St :=
  fold_left exec cs mounted.
End Commands.

(** Events of playback while an artifact is loaded. *)
Definition playback_event (e : Event) : bool :=
  match e with
  | Click PlayButton | Timeupdate _ | Finish | Play | Pause => true
  | _ => false
  end.

(** The calls that go to the capture device. *)
Definition to_plugin (c : Call) : bool :=
  match c with
  | plugin_startRecording _ | plugin_pauseRecording
  | plugin_resumeRecording | plugin_stopRecording => true
  | _ => false
  end.

(** ** The view: timers and progress bar *)

(** The left timer shows the playback position once finished, the elapsed
    time before. *)
Definition timer_left (s : St) : string :=
  match recorderState s with
  | finished => formatTime (currentTime s)
  | _ => formatTime (duration s)
  end.

(** The right timer shows the limit in the limited mode. *)
Definition timer_right (s : St) : string :=
  match mode s with
  | LIMITED => formatTime maxDuration
  | UNLIMITED => formatTime (duration s)
  end.

(** Width of the progress bar in percent; [None] when it is not rendered. *)
Definition progress_bar (s : St) : option Q :=
  if mode_eqb (mode s) LIMITED &&
     negb match recorderState s with idle => true | _ => false end
  then Some (duration s / maxDuration * 100)%Q
  else None.

(** ** Classifying calls and events *)

Definition is_setTimeout (c : Call) : bool :=
  match c with window_setTimeout _ => true | _ => false end.
Definition is_stop (c : Call) : bool :=
  match c with plugin_stopRecording => true | _ => false end.
Definition is_start (c : Call) : bool :=
  match c with plugin_startRecording _ => true | _ => false end.
Definition is_error (c : Call) : bool :=
  match c with console_error _ => true | _ => false end.
Definition is_create (c : Call) : bool :=
  match c with ws_create _ => true | _ => false end.

(** The test of the record-progress handler on the reported time. *)
Definition reaches_limit (time : Q) : bool :=
  Qle_bool maxDuration (time / 1000).

Definition is_record_end (e : Event) : bool :=
  match e with RecordEnd _ => true | _ => false end.

Definition is_record_click (e : Event) : bool :=
  match e with Click RecordButton => true | _ => false end.

(** Notifications that report a time report a non-negative one. *)
Definition nonneg_event (e : Event) : bool :=
  match e with
  | RecordProgress time | Timeupdate time => Qle_bool 0 time
  | _ => true
  end.

End AudioRecorderApp.

(* ===================================================================== *)
(** * Recorder (src/unnamed/part_001) *)
(* ===================================================================== *)

(** The model is of the mounted component: [wavesurferRef.current] and
    [recordRef.current] are assigned by the mount effect and never cleared,
    so the handlers' dereferences succeed and their null tests pass. *)
Module Recorder.

Section Rendering.
(** The conversion of a number that is not whole to a string: the
    language's, it is not in the source. *)
Variable fraction_toString : Q → string.

(** [String(x)], the conversion a template literal and ["0" + x] apply. *)
Definition toString (x : Q) : string :=
  if Qeq_bool x (inject_Z (Qfloor x)) then pretty (Qfloor x)
  else fraction_toString x.

(** [formatTime] takes any number ([time], [playbackTime], or the
    [maxDuration] prop) and does not round the seconds. *)
Definition formatTime (sec : Q) : string :=
  let mins := Qfloor (sec / 60) in
  let secs := js_rem sec 60 in
  pretty mins +:+ ":" +:+
    (if negb (Qle_bool 10 secs) then "0" +:+ toString secs else toString secs).
End Rendering.

Inductive Mode := idle | recording | paused | stopped | playing.

Inductive Call :=
| plugin_startRecording
| plugin_pauseRecording
| plugin_resumeRecording
| plugin_stopRecording
| ws_play
| ws_pause
| ws_loadBlob (b : Blob)
| ws_load_baseline
| ws_seekTo (progress : Z)
| ws_setOptions (interact : bool) (cursorWidth : Z)
| ws_destroy
| window_alert.

(** The [useState] cells, [modeRef] and [timerRef], the intervals the
    browser keeps firing (by id; [nextInterval] is the id the next
    [setInterval] returns) and the number of "interaction" listeners
    registered on WaveSurfer. *)
Record St := mkSt {
  mode : Mode;
  modeRef : Mode;
  _blob : option Blob;
  time : Z;
  playbackTime : Z;
  timerRef : option nat;
  intervals : gset nat;
  nextInterval : nat;
  interactionListeners : nat
}.

(** The helper that updates both the state and the ref. *)
Definition setMode (v : Mode) (s : St) : St :=
  mkSt v v (_blob s) (time s) (playbackTime s) (timerRef s) (intervals s)
       (nextInterval s) (interactionListeners s).
Definition setBlob (v : option Blob) (s : St) : St :=
  mkSt (mode s) (modeRef s) v (time s) (playbackTime s) (timerRef s)
       (intervals s) (nextInterval s) (interactionListeners s).
Definition setTime (v : Z) (s : St) : St :=
  mkSt (mode s) (modeRef s) (_blob s) v (playbackTime s) (timerRef s)
       (intervals s) (nextInterval s) (interactionListeners s).
Definition setPlaybackTime (v : Z) (s : St) : St :=
  mkSt (mode s) (modeRef s) (_blob s) (time s) v (timerRef s) (intervals s)
       (nextInterval s) (interactionListeners s).
(** [timerRef.current = setInterval(..)]. *)
Definition setInterval (s : St) : St :=
  let id := nextInterval s in
  mkSt (mode s) (modeRef s) (_blob s) (time s) (playbackTime s) (Some id)
       ({[id]} ∪ intervals s) (S id) (interactionListeners s).
(** [clearInterval(id)]; clearing [null] does nothing. *)
Definition clearInterval (id : option nat) (s : St) : St :=
  match id with
  | Some i =>
      mkSt (mode s) (modeRef s) (_blob s) (time s) (playbackTime s)
           (timerRef s) (intervals s ∖ {[i]}) (nextInterval s)
           (interactionListeners s)
  | None => s
  end.
Definition addInteractionListener (s : St) : St :=
  mkSt (mode s) (modeRef s) (_blob s) (time s) (playbackTime s) (timerRef s)
       (intervals s) (nextInterval s) (S (interactionListeners s)).

Definition Handler : Type := Action St Call.

Definition mounted : St := mkSt idle idle None 0 0 None ∅ 0 0.

(** Cleanup of the mount effect. *)
Definition effect_cleanup : Handler := call ws_destroy.

Inductive Control :=
| RecordButton | TrashButton | StartAgainButton | PauseButton
| ResumeButton | StopButton | PlayButton | PausePlaybackButton
| UploadButton.

Definition rendered (c : Control) (s : St) : bool :=
  match c, mode s with
  | RecordButton, idle => true
  | TrashButton, (recording | paused | stopped | playing) => true
  | PauseButton, recording => true
  | StopButton, (recording | paused) => true
  | ResumeButton, paused => true
  | StartAgainButton, (stopped | playing) => true
  | PlayButton, stopped => true
  | PausePlaybackButton, playing => true
  | UploadButton, (stopped | playing) => true
  | _, _ => false
  end.

Definition mode_eqb (a b : Mode) : bool :=
  match a, b with
  | idle, idle | recording, recording | paused, paused
  | stopped, stopped | playing, playing => true
  | _, _ => false
  end.

(** The effect on [mode] ("enable interaction after recording"): after a
    render in which the mode has changed it sets the options of WaveSurfer
    for the new mode. *)
Definition mode_effect (before after : Mode) : list Call :=
  if mode_eqb before after then []
  else match after with
       | playing => [ws_setOptions true 2]
       | stopped => [ws_setOptions true 0]
       | _ => [ws_setOptions false 0]
       end.

Inductive Event :=
| Click (c : Control)
| StartRejected
| IntervalFired (id : nat)
| RecordProgress (currentTime : Q)
| RecordEnd (recordedBlob : Blob)
| Interaction
| Audioprocess (currentTime : Q)
| Finish.

Section Props.
(** The prop [maxDuration = null]. *)
Variable maxDuration : option Z.

(** ** Timer functions *)

(** The callback given to [setInterval]: the updater of [setTime]. *)
Definition startTimer_tick : Handler := λ s,
  let newTime := time s + 1 in
  (when (λ _, truthy maxDuration && (default 0 maxDuration <=? newTime))
     (call plugin_stopRecording) ;;
   set (setTime newTime))%act s.

Definition startTimer : Handler := set setInterval.

Definition stopTimer : Handler := set (λ s, clearInterval (timerRef s) s).

(** ** Actions *)

Definition startRecording : Handler :=
  (set (setMode recording) ;;
   set (setTime 0) ;;
   call plugin_startRecording ;;
   when (λ _, negb (truthy maxDuration)) startTimer)%act.

Definition pauseRecording : Handler :=
  (call plugin_pauseRecording ;;
   stopTimer ;;
   set (setMode paused))%act.

Definition resumeRecording : Handler :=
  (call plugin_resumeRecording ;;
   when (λ _, negb (truthy maxDuration)) startTimer ;;
   set (setMode recording))%act.

Definition stopRecording : Handler :=
  when (λ s, match mode s with recording | paused => true | _ => false end)
    (call plugin_stopRecording).

Definition play : Handler :=
  (call ws_play ;; set (setMode playing))%act.

Definition pause : Handler :=
  (call ws_pause ;; set (setMode stopped))%act.

Definition restart : Handler :=
  (stopTimer ;;
   set (setTime 0) ;;
   set (setPlaybackTime 0) ;;
   set (setBlob None) ;;
   set (setMode idle) ;;
   call ws_load_baseline ;;
   call (ws_seekTo 0) ;;
   call (ws_setOptions false 0))%act.

Definition mockUpload : Handler := call window_alert.

(** ** Notifications *)

Definition on_record_end (recordedBlob : Blob) : Handler :=
  (set (setBlob (Some recordedBlob)) ;;
   set (setMode stopped) ;;
   stopTimer ;;
   call (ws_loadBlob recordedBlob) ;;
   set addInteractionListener)%act.

(** Every listener registered by a record-end runs. *)
Definition on_interaction : Handler := λ s,
  (match interactionListeners s with
   | O => s
   | S _ => setMode playing s
   end,
   replicate (interactionListeners s) ws_play).

Definition on_record_progress (currentTime : Q) : Handler :=
  set (setTime (Qfloor (currentTime / 1000))).

Definition on_audioprocess (currentTime : Q) : Handler :=
  when (λ s, match modeRef s with playing => true | _ => false end)
    (set (setPlaybackTime (Qfloor currentTime))).

Definition on_finish : Handler :=
  (set (setMode stopped) ;; set (setPlaybackTime 0))%act.

(** ** The machine *)

Definition onClick (c : Control) : Handler :=
  match c with
  | RecordButton => startRecording
  | TrashButton | StartAgainButton => restart
  | PauseButton => pauseRecording
  | ResumeButton => resumeRecording
  | StopButton => stopRecording
  | PlayButton => play
  | PausePlaybackButton => pause
  | UploadButton => mockUpload
  end.

Definition click (c : Control) : Handler := when (rendered c) (onClick c).

(** The promise of [record.startRecording()] is dropped: nothing runs
    when it is rejected.  An interval fires only while it is set. *)
Definition handle (e : Event) : Handler :=
  match e with
  | Click c => click c
  | StartRejected => skip
  | IntervalFired id =>
      when (λ s, bool_decide (id ∈ intervals s)) startTimer_tick
  | RecordProgress currentTime => on_record_progress currentTime
  | RecordEnd recordedBlob => on_record_end recordedBlob
  | Interaction => on_interaction
  | Audioprocess currentTime => on_audioprocess currentTime
  | Finish => on_finish
  end.

(** One event: its handler, then the render it causes, which runs the
    effect on [mode] when the mode has changed. *)
Definition step (e : Event) : Handler := λ s,
  let '(s', out) := handle e s in
  (s', out ++ mode_effect (mode s) (mode s')).
End Props.

(** ** The session the component presents *)

Definition session (s : St) : Session.State :=
  match mode s with
  | idle => Session.Idle
  | recording => Session.Recording
  | paused => Session.Paused
  | stopped | playing => Session.Finished
  end.

Definition control_of (c : Session.Command) : Control :=
  match c with
  | Session.start => RecordButton
  | Session.pause => PauseButton
  | Session.resume => ResumeButton
  | Session.stop => StopButton
  | Session.reset => TrashButton
  end.

(** The table the view offers: the documented one, with the trash button
    also offered while recording and while paused. *)
Definition offered : Session.Table := λ st c,
  match st, c with
  | (Session.Recording | Session.Paused), Session.reset => Some Session.Idle
  | _, _ => Session.documented st c
  end.

Section Commands.
Variable maxDuration : option Z.
Variable artifact : Blob.

(** Modelled from the spec: the CaptureDevice of section 6, which is
    wavesurfer's RecordPlugin and not part of the repository.  A cooperative
    device: a stopped plugin emits record-end ("completed(artifact) exactly
    once per recording cycle"); nothing observes the promise of a start. *)
Definition respond (c : Call) : list Event :=
  match c with
  | plugin_stopRecording => [RecordEnd artifact]
  | _ => []
  end.

Definition settle (so : St * list Call) : St * list Call :=
  let step := step maxDuration in
  answer step respond (answer step respond so).

Definition exec (s : St) (c : Session.Command) : St :=
  fst (settle (step maxDuration (Click (control_of c)) s)).

Definition exec_all (cs : list Session.Command) : St :=
  fold_left exec cs mounted.
End Commands.

Definition playback_event (e : Event) : bool :=
  match e with
  | Click PlayButton | Click PausePlaybackButton
  | Interaction | Audioprocess _ | Finish => true
  | _ => false
  end.

(** The calls that go to the capture device. *)
Definition to_plugin (c : Call) : bool :=
  match c with
  | plugin_startRecording | plugin_pauseRecording
  | plugin_resumeRecording | plugin_stopRecording => true
  | _ => false
  end.

(** Notifications of elapsed time: the plugin's progress and the ticks of
    the component's own intervals. *)
Definition elapsed_event (e : Event) : bool :=
  match e with
  | RecordProgress _ | IntervalFired _ => true
  | _ => false
  end.

(** Events of a capture: clicks, interval ticks and the plugin's
    notifications (the playback notifications of WaveSurfer apart). *)
Definition capture_event (e : Event) : bool :=
  match e with
  | Click _ | StartRejected | IntervalFired _
  | RecordProgress _ | RecordEnd _ => true
  | Interaction | Audioprocess _ | Finish => false
  end.

(** The timer discipline: the only interval that can be set is the one
    [timerRef] holds, and none is set unless the mode is recording. *)
Definition timer_ok (s : St) : Prop :=
  intervals s ⊆ match timerRef s with Some i => {[i]} | None => ∅ end ∧
  (mode s ≠ recording → intervals s = ∅).

Definition is_record_end (e : Event) : bool :=
  match e with RecordEnd _ => true | _ => false end.

Definition is_stop (c : Call) : bool :=
  match c with plugin_stopRecording => true | _ => false end.

Definition is_stop_click (e : Event) : bool :=
  match e with Click StopButton => true | _ => false end.

Definition is_play (c : Call) : bool :=
  match c with ws_play => true | _ => false end.

End Recorder.

(* ===================================================================== *)
(** * Properties *)
(* ===================================================================== *)

Import Session.

Ltac app_query its :=
  unfold AudioRecorderApp.step, AudioRecorderApp.click,
    AudioRecorderApp.onClick, AudioRecorderApp.startRecording, when, seq;
  simpl; destruct (its "audio/webm"); simpl.

Ltac unfold_recorder :=
  unfold run, Recorder.step, Recorder.handle, Recorder.click,
    Recorder.onClick, Recorder.startRecording, Recorder.resumeRecording,
    when, seq.

(** ** Running a list of events *)

Lemma run_cons {St Call E : Type} (step : E → Action St Call) e evs s :
  run step (e :: evs) s
  = ((run step evs (step e s).1).1,
     (step e s).2 ++ (run step evs (step e s).1).2).
Proof.
  cbn [run]. unfold seq. destruct (step e s) as [s1 o1]. simpl.
  destruct (run step evs s1) as [s2 o2]. reflexivity.
Qed.

(** ** An event of Recorder and its handler *)

Lemma Recorder_mode_eqb_refl (m : Recorder.Mode) : Recorder.mode_eqb m m = true.
Proof. destruct m; reflexivity. Qed.

Lemma Recorder_step_fst maxD (e : Recorder.Event) (s : Recorder.St) :
  (Recorder.step maxD e s).1 = (Recorder.handle maxD e s).1.
Proof. unfold Recorder.step. destruct (Recorder.handle maxD e s). reflexivity. Qed.

Lemma Recorder_step_snd maxD (e : Recorder.Event) (s : Recorder.St) :
  (Recorder.step maxD e s).2
  = (Recorder.handle maxD e s).2
    ++ Recorder.mode_effect (Recorder.mode s)
         (Recorder.mode (Recorder.handle maxD e s).1).
Proof. unfold Recorder.step. destruct (Recorder.handle maxD e s). reflexivity. Qed.

(** Without a change of mode the effect does not run. *)
Lemma Recorder_step_same maxD (e : Recorder.Event) (s : Recorder.St) :
  Recorder.mode (Recorder.handle maxD e s).1 = Recorder.mode s →
  Recorder.step maxD e s = Recorder.handle maxD e s.
Proof.
  intros Hm. unfold Recorder.step.
  destruct (Recorder.handle maxD e s) as [s' out]. simpl in Hm.
  unfold Recorder.mode_effect. rewrite Hm, Recorder_mode_eqb_refl, app_nil_r.
  reflexivity.
Qed.

Lemma Recorder_run_fst maxD evs (s : Recorder.St) :
  (run (Recorder.step maxD) evs s).1 = (run (Recorder.handle maxD) evs s).1.
Proof.
  revert s. induction evs as [|e evs IH]; intros s; [reflexivity|].
  rewrite !run_cons. cbn [fst]. rewrite Recorder_step_fst. apply IH.
Qed.

(** ** The spec's scenario: start, five ticks, stop *)

Example AudioRecorderApp_five_seconds :
  let r := run (AudioRecorderApp.step (λ _, AudioRecorderApp.Returns true))
             [AudioRecorderApp.Click AudioRecorderApp.RecordButton;
              AudioRecorderApp.StartFulfilled;
              AudioRecorderApp.RecordProgress 1000;
              AudioRecorderApp.RecordProgress 2000;
              AudioRecorderApp.RecordProgress 3000;
              AudioRecorderApp.RecordProgress 4000;
              AudioRecorderApp.RecordProgress 5000;
              AudioRecorderApp.Click AudioRecorderApp.StopButton;
              AudioRecorderApp.TimeoutFired;
              AudioRecorderApp.RecordEnd (blob 7)] AudioRecorderApp.mounted in
  AudioRecorderApp.session r.1 = Finished ∧
  (AudioRecorderApp.duration r.1 == 5)%Q ∧
  AudioRecorderApp.recordedUrl r.1 = Some (createObjectURL (blob 7)).
Proof. vm_compute. repeat split. Qed.

Example Recorder_five_seconds :
  let r := run (Recorder.step None)
             [Recorder.Click Recorder.RecordButton;
              Recorder.IntervalFired 0; Recorder.IntervalFired 0;
              Recorder.IntervalFired 0; Recorder.IntervalFired 0;
              Recorder.IntervalFired 0;
              Recorder.Click Recorder.StopButton;
              Recorder.RecordEnd (blob 7)] Recorder.mounted in
  Recorder.session r.1 = Finished ∧
  Recorder.time r.1 = 5 ∧
  Recorder._blob r.1 = Some (blob 7) ∧
  Recorder.intervals r.1 = ∅.
Proof. vm_compute. repeat split. Qed.

(** ** formatTime *)

Lemma Qfloor_whole_div (s : Z) : Qfloor (inject_Z s / 60) = s / 60.
Proof.
  unfold Qdiv, Qmult, Qinv, inject_Z. simpl.
  rewrite Z.mul_1_r. reflexivity.
Qed.

Lemma js_rem_whole (s : Z) :
  0 ≤ s → Qfloor (js_rem (inject_Z s) 60) = s mod 60.
Proof.
  intros Hs. unfold js_rem, Qtrunc.
  assert (Hle : Qle_bool 0 (inject_Z s / 60) = true).
  { unfold Qle_bool, Qdiv, Qmult, Qinv, inject_Z. simpl. apply Z.leb_le. lia. }
  rewrite Hle, Qfloor_whole_div.
  unfold Qminus, Qplus, Qopp, Qmult, inject_Z, Qfloor. simpl.
  rewrite Z.div_1_r. rewrite Z.mod_eq by lia. lia.
Qed.

(** Padding below ten and printing from ten on both give two digits: checked
    on each of the sixty remainders. *)
Lemma two_digits_render (r : Z) :
  0 ≤ r < 60 →
  (if r <? 10 then "0" +:+ pretty r else pretty r) = two_digits r.
Proof.
  intros Hr.
  assert (Hall : forallb (λ n : nat,
            String.eqb (if Z.of_nat n <? 10
                        then "0" +:+ pretty (Z.of_nat n)
                        else pretty (Z.of_nat n))
                       (two_digits (Z.of_nat n))) (List.seq 0 60) = true)
    by (vm_compute; reflexivity).
  rewrite forallb_forall in Hall.
  specialize (Hall (Z.to_nat r)).
  rewrite Z2Nat.id in Hall by lia.
  apply String.eqb_eq, Hall, in_seq. lia.
Qed.

Lemma js_rem_whole_eq (s : Z) :
  0 ≤ s → js_rem (inject_Z s) 60 = inject_Z (s mod 60).
Proof.
  intros Hs. unfold js_rem, Qtrunc.
  assert (Hle : Qle_bool 0 (inject_Z s / 60) = true).
  { unfold Qle_bool, Qdiv, Qmult, Qinv, inject_Z. simpl. apply Z.leb_le. lia. }
  rewrite Hle, Qfloor_whole_div.
  unfold Qminus, Qplus, Qopp, Qmult, inject_Z. simpl.
  f_equal. rewrite Z.mod_eq by lia. lia.
Qed.

(** A whole number is converted to its decimal digits. *)
Lemma toString_whole fraction_toString (r : Z) :
  Recorder.toString fraction_toString (inject_Z r) = pretty r.
Proof.
  unfold Recorder.toString. rewrite Qfloor_Z.
  assert (H : Qeq_bool (inject_Z r) (inject_Z r) = true)
    by (apply Qeq_bool_iff; reflexivity).
  rewrite H. reflexivity.
Qed.

Lemma Recorder_formatTime_whole fraction_toString (s : Z) :
  0 ≤ s →
  Recorder.formatTime fraction_toString (inject_Z s) = minutes_seconds s.
Proof.
  intros Hs. unfold Recorder.formatTime, minutes_seconds.
  assert (Hr : 0 ≤ s mod 60 < 60) by (apply Z.mod_pos_bound; lia).
  rewrite Qfloor_whole_div, js_rem_whole_eq, toString_whole by lia.
  rewrite <- two_digits_render by lia.
  assert (Hc : negb (Qle_bool 10 (inject_Z (s mod 60))) = (s mod 60 <? 10)).
  { unfold Qle_bool, inject_Z. simpl.
    destruct (Z.leb_spec 10 (s mod 60 * 1)), (Z.ltb_spec (s mod 60) 10);
      simpl; try reflexivity; lia. }
  rewrite Hc. reflexivity.
Qed.

(** C10.  For every non-negative whole number of seconds [s] below 2^53,
    where the code's numbers are exact, both [formatTime] functions return
    floor(s/60), a colon and s mod 60 on exactly two digits; hence they
    agree. *)
Theorem formatTime_minutes_seconds (fraction_toString : Q → string) (s : Z) :
  0 ≤ s < 2 ^ 53 →
  AudioRecorderApp.formatTime (inject_Z s) = minutes_seconds s ∧
  Recorder.formatTime fraction_toString (inject_Z s) = minutes_seconds s ∧
  AudioRecorderApp.formatTime (inject_Z s)
  = Recorder.formatTime fraction_toString (inject_Z s) ∧
  String.length (two_digits (s mod 60)) = 2%nat.
Proof.
  intros [Hs _].
  assert (Hr : 0 ≤ s mod 60 < 60) by (apply Z.mod_pos_bound; lia).
  assert (HA : AudioRecorderApp.formatTime (inject_Z s) = minutes_seconds s).
  { unfold AudioRecorderApp.formatTime, minutes_seconds.
    rewrite Qfloor_whole_div, js_rem_whole by lia.
    rewrite <- two_digits_render by lia.
    destruct (s mod 60 <? 10); reflexivity. }
  pose proof (Recorder_formatTime_whole fraction_toString s Hs) as HR.
  repeat split; [exact HA | exact HR | congruence].
Qed.

(** C10 at 125 seconds: "2:05" in both components. *)
Lemma formatTime_minutes_seconds_125 :
  0 ≤ 125 < 2 ^ 53 ∧
  AudioRecorderApp.formatTime (inject_Z 125) = "2:05" ∧
  Recorder.formatTime (λ _, "") (inject_Z 125) = "2:05".
Proof.
  assert (H : 0 ≤ 125 < 2 ^ 53) by (split; [lia | reflexivity]).
  split; [exact H|].
  destruct (formatTime_minutes_seconds (λ _, "") 125 H) as (HA & HR & _).
  split; [exact HA | exact HR].
Defined.

(** ** Commands against the transition table *)

(** One settled command of AudioRecorderApp follows the offered table; the
    plugin ref stays set. *)
Lemma AudioRecorderApp_exec_offered its art (s : AudioRecorderApp.St) c :
  AudioRecorderApp.recordPluginRef s = true →
  AudioRecorderApp.session (AudioRecorderApp.exec its art s c)
    = apply AudioRecorderApp.offered (AudioRecorderApp.session s) c ∧
  AudioRecorderApp.recordPluginRef (AudioRecorderApp.exec its art s c) = true.
Proof.
  destruct s as [st d ct m u p w r a t]; simpl; intros ->.
  destruct c, st, w; split; reflexivity.
Qed.

Lemma Recorder_exec_offered maxD art (s : Recorder.St) c :
  Recorder.session (Recorder.exec maxD art s c)
    = apply Recorder.offered (Recorder.session s) c.
Proof.
  destruct s as [m mr b t pt tr iv ni il].
  destruct tr, c, m; try reflexivity.
  all: unfold Recorder.exec, Recorder.settle, answer; unfold_recorder; simpl.
  all: destruct (truthy maxD); reflexivity.
Qed.

(** Three, respectively two, rounds of answers settle a command: nothing
    that the device would answer is left. *)
Lemma settle_quiescent its maxD art c
    (sA : AudioRecorderApp.St) (sR : Recorder.St) :
  flat_map (AudioRecorderApp.respond art)
    (AudioRecorderApp.settle its art
       (AudioRecorderApp.click (AudioRecorderApp.isTypeSupported its)
          (AudioRecorderApp.control_of c) sA)).2 = [] ∧
  flat_map (Recorder.respond art)
    (Recorder.settle maxD art
       (Recorder.step maxD (Recorder.Click (Recorder.control_of c)) sR)).2
  = [].
Proof.
  split.
  - destruct sA as [st d ct m u p [] [] a t]; destruct c, st; reflexivity.
  - destruct sR as [m mr b t pt tr iv ni il]; destruct tr, c, m;
      try reflexivity.
    all: unfold Recorder.settle, answer; unfold_recorder; simpl.
    all: destruct (truthy maxD); reflexivity.
Qed.

(** C1 (amended).  For every finite sequence of user commands applied to
    the mounted component, each one settled by the capture device before the
    next, the session state is the fold over the sequence of the table of
    controls the view offers: the documented table with reset also offered
    from Recording and Paused (and, in AudioRecorderApp, with no stop offered
    from Paused); a command with no control offered in the current state
    leaves the state unchanged. *)
Theorem state_follows_offered_table its maxD art (cs : list Command) :
  AudioRecorderApp.session (AudioRecorderApp.exec_all its art cs)
    = fold AudioRecorderApp.offered cs ∧
  Recorder.session (Recorder.exec_all maxD art cs)
    = fold Recorder.offered cs.
Proof.
  split.
  - unfold AudioRecorderApp.exec_all, fold.
    change Idle with (AudioRecorderApp.session AudioRecorderApp.mounted).
    assert (Href : AudioRecorderApp.recordPluginRef AudioRecorderApp.mounted
                   = true) by reflexivity.
    revert Href. generalize AudioRecorderApp.mounted as s.
    induction cs as [|c cs IH]; intros s Href; [reflexivity|].
    simpl. destruct (AudioRecorderApp_exec_offered its art s c Href) as [<- Href'].
    now apply IH.
  - unfold Recorder.exec_all, fold.
    change Idle with (Recorder.session Recorder.mounted).
    generalize Recorder.mounted as s.
    induction cs as [|c cs IH]; intros s; [reflexivity|].
    simpl. rewrite <- (Recorder_exec_offered maxD art). apply IH.
Qed.

(** C1 as stated fails: after start, reset the documented table keeps
    Recording while both components are back to Idle; after start, pause,
    stop the documented table reaches Finished while AudioRecorderApp, which
    renders no stop button while paused, stays Paused. *)
Lemma documented_table_not_followed :
  AudioRecorderApp.session
    (AudioRecorderApp.exec_all true (blob 0) [start; reset])
    ≠ fold documented [start; reset] ∧
  Recorder.session (Recorder.exec_all None (blob 0) [start; reset])
    ≠ fold documented [start; reset] ∧
  AudioRecorderApp.session
    (AudioRecorderApp.exec_all true (blob 0) [start; pause; stop])
    ≠ fold documented [start; pause; stop].
Proof. repeat split; vm_compute; discriminate. Qed.

(** ** Commands the view does not offer *)




(** The guard is the view: called directly, the pause handlers forward the
    call and move to paused from any state. *)
Lemma pauseRecording_unguarded :
  AudioRecorderApp.pauseRecording AudioRecorderApp.mounted
    = (AudioRecorderApp.setRecorderState AudioRecorderApp.paused
         AudioRecorderApp.mounted,
       [AudioRecorderApp.plugin_pauseRecording]) ∧
  Recorder.pauseRecording Recorder.mounted
    = (Recorder.setMode Recorder.paused Recorder.mounted,
       [Recorder.plugin_pauseRecording]).
Proof. split; reflexivity. Qed.

(** Recorder's [stopRecording] alone tests the mode itself. *)
Lemma Recorder_stopRecording_guarded (s : Recorder.St) :
  Recorder.session s = Idle ∨ Recorder.session s = Finished →
  Recorder.stopRecording s = (s, []).
Proof.
  destruct s as [m mr b t pt tr iv ni il]; destruct m; simpl; intros [H|H];
    try discriminate H; reflexivity.
Qed.

(** ** Reset *)

(** C8 (amended).  Reset returns the session to Idle with the artifact
    absent and the elapsed time 0 from every state in which its control is
    offered: Recording, Paused and Finished. *)
Theorem reset_returns_to_idle its maxD
    (sA : AudioRecorderApp.St) (sR : Recorder.St) :
  (AudioRecorderApp.session sA ≠ Idle →
   let s' := (AudioRecorderApp.click its AudioRecorderApp.DeleteButton sA).1 in
   AudioRecorderApp.session s' = Idle ∧
   AudioRecorderApp.recordedUrl s' = None ∧
   AudioRecorderApp.duration s' = 0%Q ∧
   AudioRecorderApp.currentTime s' = 0%Q) ∧
  (Recorder.session sR ≠ Idle →
   let s' := (Recorder.click maxD Recorder.TrashButton sR).1 in
   Recorder.session s' = Idle ∧
   Recorder._blob s' = None ∧
   Recorder.time s' = 0 ∧
   Recorder.playbackTime s' = 0).
Proof.
  split.
  - destruct sA as [[] d ct m u p [] r a t]; simpl; intros H;
      try contradiction; repeat split.
  - destruct sR as [[] mr b t pt [] iv ni il]; simpl; intros H;
      try contradiction; repeat split.
Qed.

(** C8 while recording, five seconds in (AudioRecorderApp) and while paused
    (Recorder). *)
Lemma reset_returns_to_idle_capturing :
  let sA := (run (AudioRecorderApp.step (λ _, AudioRecorderApp.Returns true))
               [AudioRecorderApp.Click AudioRecorderApp.RecordButton;
                AudioRecorderApp.StartFulfilled;
                AudioRecorderApp.RecordProgress 5000]
               AudioRecorderApp.mounted).1 in
  let sR := Recorder.exec_all None (blob 0) [start; pause] in
  (AudioRecorderApp.session sA ≠ Idle ∧
   AudioRecorderApp.session
     (AudioRecorderApp.click (λ _, AudioRecorderApp.Returns true) AudioRecorderApp.DeleteButton sA).1
   = Idle) ∧
  (Recorder.session sR ≠ Idle ∧
   Recorder.session (Recorder.click None Recorder.TrashButton sR).1 = Idle).
Proof.
  intros sA sR.
  assert (HA : AudioRecorderApp.session sA ≠ Idle) by (vm_compute; discriminate).
  assert (HR : Recorder.session sR ≠ Idle) by (vm_compute; discriminate).
  split; (split; [assumption|]).
  - exact (proj1 (proj1 (reset_returns_to_idle (λ _, AudioRecorderApp.Returns true) None sA sR) HA)).
  - exact (proj1 (proj2 (reset_returns_to_idle (λ _, AudioRecorderApp.Returns true) None sA sR) HR)).
Defined.

(** C8 as stated fails: called while Recording, reset is not a no-op, it
    discards the five seconds recorded so far. *)
Lemma reset_outside_finished_not_noop :
  let sA := (run (AudioRecorderApp.step (λ _, AudioRecorderApp.Returns true))
               [AudioRecorderApp.Click AudioRecorderApp.RecordButton;
                AudioRecorderApp.StartFulfilled;
                AudioRecorderApp.RecordProgress 5000]
               AudioRecorderApp.mounted).1 in
  let sR := (run (Recorder.step None)
               [Recorder.Click Recorder.RecordButton;
                Recorder.RecordProgress 5000] Recorder.mounted).1 in
  (AudioRecorderApp.session sA = Recording ∧
   (AudioRecorderApp.click (λ _, AudioRecorderApp.Returns true) AudioRecorderApp.DeleteButton sA).1
   ≠ sA) ∧
  (Recorder.session sR = Recording ∧
   (Recorder.click None Recorder.TrashButton sR).1 ≠ sR).
Proof. repeat split; vm_compute; discriminate. Qed.

(** The handlers themselves reset unconditionally. *)
Lemma reset_handlers_unconditional (sA : AudioRecorderApp.St) (sR : Recorder.St) :
  AudioRecorderApp.session (AudioRecorderApp.deleteRecording sA).1 = Idle ∧
  Recorder.session (Recorder.restart sR).1 = Idle.
Proof.
  split.
  - destruct sA as [st d ct m u p []]; reflexivity.
  - destruct sR as [m mr b t pt [] iv ni il]; reflexivity.
Qed.

(** ** Playback *)

Lemma replicate_not_to_plugin (n : nat) :
  existsb Recorder.to_plugin (replicate n Recorder.ws_play) = false.
Proof. induction n as [|n IH]; [reflexivity | exact IH]. Qed.

(** C7.  While the session is Finished, every playback event (the play and
    pause controls and the playback notifications of the view, its position
    reports included) leaves the session Finished, changes neither the
    elapsed time nor the artifact, and forwards nothing to the capture
    device. *)
Theorem playback_leaves_session its maxD
    (eA : AudioRecorderApp.Event) (sA : AudioRecorderApp.St)
    (eR : Recorder.Event) (sR : Recorder.St) :
  (AudioRecorderApp.playback_event eA = true →
   AudioRecorderApp.session sA = Finished →
   let s' := (AudioRecorderApp.step its eA sA).1 in
   AudioRecorderApp.session s' = Finished ∧
   AudioRecorderApp.duration s' = AudioRecorderApp.duration sA ∧
   AudioRecorderApp.recordedUrl s' = AudioRecorderApp.recordedUrl sA ∧
   existsb AudioRecorderApp.to_plugin (AudioRecorderApp.step its eA sA).2
   = false) ∧
  (Recorder.playback_event eR = true →
   Recorder.session sR = Finished →
   let s' := (Recorder.step maxD eR sR).1 in
   Recorder.session s' = Finished ∧
   Recorder.time s' = Recorder.time sR ∧
   Recorder._blob s' = Recorder._blob sR ∧
   existsb Recorder.to_plugin (Recorder.step maxD eR sR).2 = false).
Proof.
  split.
  - intros He Hs.
    destruct sA as [[] d ct m u p [] r a t]; try discriminate Hs.
    all: destruct eA as [|[]| | | | | | | | |]; try discriminate He.
    all: repeat split.
  - intros He Hs.
    destruct sR as [[] mr b t pt tr iv ni il]; try discriminate Hs.
    all: destruct eR as [[]| | | | | | |]; try discriminate He.
    all: try (repeat split; fail).
    all: try (destruct mr; repeat split; fail).
    all: destruct il as [|il]; [repeat split|].
    all: unfold Recorder.step, Recorder.handle, Recorder.on_interaction.
    all: cbn [Recorder.interactionListeners Recorder.mode Recorder.setMode
              fst snd].
    all: repeat split.
    all: rewrite existsb_app, replicate_not_to_plugin; reflexivity.
Qed.

(** C7 on a finished recording: a position report of 2.5 s in
    AudioRecorderApp, the play button in Recorder. *)
Lemma playback_leaves_session_after_recording :
  let sA := AudioRecorderApp.exec_all true (blob 0) [start; stop] in
  let sR := Recorder.exec_all None (blob 0) [start; stop] in
  (AudioRecorderApp.session sA = Finished ∧
   AudioRecorderApp.session
     (AudioRecorderApp.step (λ _, AudioRecorderApp.Returns true)
        (AudioRecorderApp.Timeupdate (5 # 2)) sA).1 = Finished) ∧
  (Recorder.session sR = Finished ∧
   Recorder.session
     (Recorder.step None (Recorder.Click Recorder.PlayButton) sR).1 = Finished).
Proof.
  intros sA sR.
  split; (split; [reflexivity|]).
  - exact (proj1 (proj1 (playback_leaves_session (λ _, AudioRecorderApp.Returns true) None
                           (AudioRecorderApp.Timeupdate (5 # 2)) sA
                           (Recorder.Click Recorder.PlayButton) sR)
                    eq_refl eq_refl)).
  - exact (proj1 (proj2 (playback_leaves_session (λ _, AudioRecorderApp.Returns true) None
                           (AudioRecorderApp.Timeupdate (5 # 2)) sA
                           (Recorder.Click Recorder.PlayButton) sR)
                    eq_refl eq_refl)).
Defined.

(** ** Pause and resume *)

(** C9.  From a recording session, pause, resume, pause, resume with
    nothing in between gives back the elapsed time of the run that never
    paused: AudioRecorderApp is back in the very same state, Recorder has the
    same elapsed seconds, mode and artifact (its interval is a new one). *)
Theorem pause_resume_neutral its maxD
    (sA : AudioRecorderApp.St) (sR : Recorder.St) :
  (AudioRecorderApp.recorderState sA = AudioRecorderApp.recording →
   (run (AudioRecorderApp.step its)
      [AudioRecorderApp.Click AudioRecorderApp.PauseButton;
       AudioRecorderApp.Click AudioRecorderApp.ResumeButton;
       AudioRecorderApp.Click AudioRecorderApp.PauseButton;
       AudioRecorderApp.Click AudioRecorderApp.ResumeButton] sA).1 = sA) ∧
  (Recorder.mode sR = Recorder.recording →
   let s' := (run (Recorder.step maxD)
                [Recorder.Click Recorder.PauseButton;
                 Recorder.Click Recorder.ResumeButton;
                 Recorder.Click Recorder.PauseButton;
                 Recorder.Click Recorder.ResumeButton] sR).1 in
   Recorder.time s' = Recorder.time sR ∧
   Recorder.mode s' = Recorder.recording ∧
   Recorder._blob s' = Recorder._blob sR).
Proof.
  split.
  - intros HA.
    destruct sA as [st d ct m u p w [] a t]; simpl in HA; subst st; reflexivity.
  - intros HR.
    destruct sR as [m mr b t pt [] iv ni il]; simpl in HR; subst m.
    all: unfold_recorder; simpl.
    all: destruct (truthy maxD); repeat split.
Qed.

(** C9 three seconds into a recording. *)
Lemma pause_resume_neutral_at_3 :
  let sA := (run (AudioRecorderApp.step (λ _, AudioRecorderApp.Returns true))
               [AudioRecorderApp.Click AudioRecorderApp.RecordButton;
                AudioRecorderApp.StartFulfilled;
                AudioRecorderApp.RecordProgress 3000]
               AudioRecorderApp.mounted).1 in
  let sR := (run (Recorder.step None)
               [Recorder.Click Recorder.RecordButton;
                Recorder.IntervalFired 0; Recorder.IntervalFired 0;
                Recorder.IntervalFired 0] Recorder.mounted).1 in
  (AudioRecorderApp.recorderState sA = AudioRecorderApp.recording ∧
   AudioRecorderApp.duration
     (run (AudioRecorderApp.step (λ _, AudioRecorderApp.Returns true))
        [AudioRecorderApp.Click AudioRecorderApp.PauseButton;
         AudioRecorderApp.Click AudioRecorderApp.ResumeButton;
         AudioRecorderApp.Click AudioRecorderApp.PauseButton;
         AudioRecorderApp.Click AudioRecorderApp.ResumeButton] sA).1
   = AudioRecorderApp.duration sA) ∧
  (Recorder.mode sR = Recorder.recording ∧
   Recorder.time
     (run (Recorder.step None)
        [Recorder.Click Recorder.PauseButton;
         Recorder.Click Recorder.ResumeButton;
         Recorder.Click Recorder.PauseButton;
         Recorder.Click Recorder.ResumeButton] sR).1 = 3).
Proof.
  intros sA sR.
  split; (split; [reflexivity|]).
  - exact (f_equal AudioRecorderApp.duration
             (proj1 (pause_resume_neutral (λ _, AudioRecorderApp.Returns true) None sA sR) eq_refl)).
  - exact (proj1 (proj2 (pause_resume_neutral (λ _, AudioRecorderApp.Returns true) None sA sR) eq_refl)).
Defined.

(** ** The duration limit *)

(** With a limit set, Recorder never starts its interval, and without an
    interval no elapsed-time event forwards anything or changes the mode. *)
Lemma Recorder_elapsed_step (D : Z) (e : Recorder.Event) (s : Recorder.St) :
  Recorder.elapsed_event e = true →
  Recorder.intervals s = ∅ →
  Recorder.mode (Recorder.step (Some D) e s).1 = Recorder.mode s ∧
  Recorder.intervals (Recorder.step (Some D) e s).1 = ∅ ∧
  (Recorder.step (Some D) e s).2 = [].
Proof.
  intros He Hiv.
  assert (H : Recorder.mode (Recorder.handle (Some D) e s).1 = Recorder.mode s ∧
              Recorder.intervals (Recorder.handle (Some D) e s).1 = ∅ ∧
              (Recorder.handle (Some D) e s).2 = []).
  { destruct e as [| |id|ct| | | |]; try discriminate He.
    - cbn [Recorder.handle]. unfold when.
      rewrite bool_decide_eq_false_2 by (rewrite Hiv; apply not_elem_of_empty).
      done.
    - done. }
  destruct H as (Hm & Hi & Ho). rewrite Recorder_step_same by exact Hm. done.
Qed.

Lemma Recorder_elapsed_without_timer (D : Z) evs (s : Recorder.St) :
  forallb Recorder.elapsed_event evs = true →
  Recorder.intervals s = ∅ →
  Recorder.mode (run (Recorder.step (Some D)) evs s).1 = Recorder.mode s ∧
  Recorder.intervals (run (Recorder.step (Some D)) evs s).1 = ∅ ∧
  (run (Recorder.step (Some D)) evs s).2 = [].
Proof.
  revert s. induction evs as [|e evs IH]; intros s Hev Hiv; [done|].
  simpl in Hev. apply andb_true_iff in Hev as [He Hev].
  destruct (Recorder_elapsed_step D e s He Hiv) as (Hm & Hi & Ho).
  destruct (IH _ Hev Hi) as (Hm' & Hi' & Ho').
  rewrite run_cons. cbn [fst snd]. rewrite Ho, Ho', Hm', Hm. done.
Qed.

(** C2 on Recorder.  With [maxDuration = D], the interval whose callback
    tests the limit is started only [if (!maxDuration)]: after the record
    button, whatever progress notifications and ticks follow, the mode is
    still recording, no interval is set and no stop has been forwarded. *)
Theorem Recorder_limit_never_enforced (D : Z) (evs : list Recorder.Event) :
  D ≠ 0 →
  forallb Recorder.elapsed_event evs = true →
  let r := run (Recorder.step (Some D))
             (Recorder.Click Recorder.RecordButton :: evs) Recorder.mounted in
  Recorder.mode r.1 = Recorder.recording ∧
  Recorder.intervals r.1 = ∅ ∧
  Recorder.plugin_stopRecording ∉ r.2.
Proof.
  intros HD Hev.
  assert (Ht : truthy (Some D) = true).
  { simpl. destruct (Z.eqb_spec D 0); [contradiction|reflexivity]. }
  assert (Hclick :
    Recorder.step (Some D) (Recorder.Click Recorder.RecordButton) Recorder.mounted
    = (Recorder.setTime 0 (Recorder.setMode Recorder.recording Recorder.mounted),
       [Recorder.plugin_startRecording; Recorder.ws_setOptions false 0])).
  { unfold_recorder. simpl Recorder.rendered. cbv iota. rewrite Ht. reflexivity. }
  cbv zeta. rewrite run_cons, Hclick. cbn [fst snd].
  set (s1 := Recorder.setTime 0 _).
  destruct (Recorder_elapsed_without_timer D evs s1 Hev eq_refl) as (Hm & Hi & Ho).
  rewrite Hm, Hi, Ho. repeat split.
  rewrite app_nil_r. intros Hin.
  inversion Hin as [|? ? ? Hin2]; subst.
  inversion Hin2 as [|? ? ? Hin3]; subst. inversion Hin3.
Qed.

(** C2 at the failing input: limit 30, progress reported at 31 s and 62 s;
    the elapsed time is 62 and the session still records. *)
Lemma Recorder_limit_never_enforced_at_30 :
  let r := run (Recorder.step (Some 30))
             [Recorder.Click Recorder.RecordButton;
              Recorder.RecordProgress 31000; Recorder.RecordProgress 62000]
             Recorder.mounted in
  30 ≠ 0 ∧
  Recorder.time r.1 = 62 ∧
  Recorder.session r.1 = Recording ∧
  Recorder.intervals r.1 = ∅ ∧
  Recorder.plugin_stopRecording ∉ r.2.
Proof.
  intros r. split; [discriminate|]. split; [reflexivity|].
  destruct (Recorder_limit_never_enforced 30
              [Recorder.RecordProgress 31000; Recorder.RecordProgress 62000])
    as (Hm & Hi & Ho); [discriminate | reflexivity |].
  split; [unfold Recorder.session; subst r; rewrite Hm; reflexivity|].
  split; [exact Hi | exact Ho].
Defined.

(** AudioRecorderApp does enforce its limit: in the limited mode a progress
    notification at 30 s or more schedules the finalize callback, and the
    session is finished once the callback has run. *)
Lemma AudioRecorderApp_limit_finalizes its (time : Q) (s : AudioRecorderApp.St) :
  AudioRecorderApp.mode s = AudioRecorderApp.LIMITED →
  AudioRecorderApp.recordPluginRef s = true →
  (30000 <= time)%Q →
  let r := run (AudioRecorderApp.step its)
             [AudioRecorderApp.RecordProgress time;
              AudioRecorderApp.TimeoutFired] s in
  AudioRecorderApp.recorderState r.1 = AudioRecorderApp.finished ∧
  AudioRecorderApp.duration r.1 = (time / 1000)%Q ∧
  r.2 = [AudioRecorderApp.window_setTimeout 100;
         AudioRecorderApp.plugin_stopRecording].
Proof.
  intros Hm Hr Ht.
  assert (Hle : Qle_bool AudioRecorderApp.maxDuration (time / 1000) = true).
  { apply Qle_bool_iff. unfold AudioRecorderApp.maxDuration.
    apply Qle_shift_div_l; [reflexivity|]. exact Ht. }
  destruct s as [st d ct m u p w r a t]; simpl in Hm, Hr; subst m r.
  unfold run, AudioRecorderApp.step, AudioRecorderApp.on_record_progress,
    when, seq.
  simpl. rewrite Hle. simpl. repeat split.
Qed.

(** ** Finalizing once *)

(** C3 on AudioRecorderApp.  In the limited mode two progress notifications
    at or past 30 s arrive within the 100 ms delay: each schedules a finalize
    callback.  The first callback stops the plugin and finishes the session;
    the second, run while the session is already finished, stops the plugin
    again.  The same happens when the user presses stop inside the delay. *)
Theorem AudioRecorderApp_duplicate_stop :
  let step := AudioRecorderApp.step (λ _, AudioRecorderApp.Returns true) in
  let by_tick := run step
                   [AudioRecorderApp.Click AudioRecorderApp.RecordButton;
                    AudioRecorderApp.StartFulfilled;
                    AudioRecorderApp.RecordProgress 30000;
                    AudioRecorderApp.RecordProgress 30050;
                    AudioRecorderApp.TimeoutFired] AudioRecorderApp.mounted in
  let by_user := run step
                   [AudioRecorderApp.Click AudioRecorderApp.RecordButton;
                    AudioRecorderApp.StartFulfilled;
                    AudioRecorderApp.RecordProgress 30000;
                    AudioRecorderApp.Click AudioRecorderApp.StopButton;
                    AudioRecorderApp.TimeoutFired] AudioRecorderApp.mounted in
  (AudioRecorderApp.session by_tick.1 = Finished ∧
   by_tick.2 = [AudioRecorderApp.plugin_startRecording "audio/webm";
                AudioRecorderApp.window_setTimeout 100;
                AudioRecorderApp.window_setTimeout 100;
                AudioRecorderApp.plugin_stopRecording] ∧
   (step AudioRecorderApp.TimeoutFired by_tick.1).2
   = [AudioRecorderApp.plugin_stopRecording]) ∧
  (AudioRecorderApp.session by_user.1 = Finished ∧
   by_user.2 = [AudioRecorderApp.plugin_startRecording "audio/webm";
                AudioRecorderApp.window_setTimeout 100;
                AudioRecorderApp.window_setTimeout 100;
                AudioRecorderApp.plugin_stopRecording] ∧
   (step AudioRecorderApp.TimeoutFired by_user.1).2
   = [AudioRecorderApp.plugin_stopRecording]).
Proof. vm_compute. repeat split. Qed.

(** The finalize callback does not look at the session state. *)
Lemma AudioRecorderApp_timeout_unguarded its (s : AudioRecorderApp.St) :
  AudioRecorderApp.recordPluginRef s = true →
  AudioRecorderApp.pendingTimeouts s ≠ 0%nat →
  (AudioRecorderApp.step its AudioRecorderApp.TimeoutFired s).2
    = [AudioRecorderApp.plugin_stopRecording].
Proof.
  destruct s as [st d ct m u p w r a [|t]]; simpl; intros -> ?;
    [done|reflexivity].
Qed.

(** ** A start that fails *)

(** C5 on Recorder.  [startRecording] sets the mode before the plugin has
    started and drops the promise: when the start is rejected the session is
    Recording; the only call to the plugin is the start itself and the only
    other call sets the options of WaveSurfer for the recording mode: no
    error report. *)
Theorem Recorder_failed_start_leaves_recording (maxD : option Z) :
  let r := run (Recorder.step maxD)
             [Recorder.Click Recorder.RecordButton; Recorder.StartRejected]
             Recorder.mounted in
  Recorder.session r.1 = Recording ∧
  Recorder.session r.1 ≠ Idle ∧
  List.filter Recorder.to_plugin r.2 = [Recorder.plugin_startRecording] ∧
  r.2 = [Recorder.plugin_startRecording; Recorder.ws_setOptions false 0].
Proof.
  unfold_recorder; simpl.
  destruct (truthy maxD); repeat split; discriminate.
Qed.

(** AudioRecorderApp awaits the start inside try/catch: a rejected start
    leaves every field as it was and logs the error once. *)
Lemma AudioRecorderApp_failed_start its supported err
    (s : AudioRecorderApp.St) :
  its "audio/webm" = AudioRecorderApp.Returns supported →
  AudioRecorderApp.recorderState s = AudioRecorderApp.idle →
  AudioRecorderApp.recordPluginRef s = true →
  let r := run (AudioRecorderApp.step its)
             [AudioRecorderApp.Click AudioRecorderApp.RecordButton;
              AudioRecorderApp.StartRejected err] s in
  r.1 = s ∧
  r.2 = [AudioRecorderApp.plugin_startRecording
           (if supported then "audio/webm" else "audio/mp4");
         AudioRecorderApp.console_error err].
Proof.
  intros Hits.
  destruct s as [st d ct m u p w r a t]; simpl; intros -> ->.
  unfold AudioRecorderApp.click, AudioRecorderApp.onClick,
    AudioRecorderApp.startRecording, when, seq; simpl.
  rewrite Hits. split; reflexivity.
Qed.

(** When the query of the mime type itself throws, the click logs the error
    and nothing else happens. *)
Lemma AudioRecorderApp_start_query_throws its err (s : AudioRecorderApp.St) :
  its "audio/webm" = AudioRecorderApp.Throws err →
  AudioRecorderApp.recorderState s = AudioRecorderApp.idle →
  AudioRecorderApp.recordPluginRef s = true →
  AudioRecorderApp.step its
    (AudioRecorderApp.Click AudioRecorderApp.RecordButton) s
  = (s, [AudioRecorderApp.console_error err]).
Proof.
  intros Hits.
  destruct s as [st d ct m u p w r a t]; simpl; intros -> ->.
  unfold AudioRecorderApp.click, AudioRecorderApp.onClick,
    AudioRecorderApp.startRecording, when; simpl.
  rewrite Hits. reflexivity.
Qed.

(** ** Timers *)

#[local] Set Warnings "-clear-no-such-hyp".

(** Clicks, ticks and the plugin's notifications keep the timer discipline:
    pause, record-end and restart clear the interval they leave behind. *)
Lemma Recorder_timer_step maxD (e : Recorder.Event) (s : Recorder.St) :
  Recorder.capture_event e = true →
  Recorder.timer_ok s → Recorder.timer_ok (Recorder.step maxD e s).1.
Proof.
  intros He [Hsub Hrec]. rewrite Recorder_step_fst.
  destruct s as [m mr b t pt tr iv ni il]; simpl in Hsub, Hrec.
  destruct e as [c| |id|ct|rb| | |]; try discriminate He; clear He.
  - assert (Hidle : m ≠ Recorder.recording → iv = ∅) by exact Hrec.
    destruct c, m; try (split; [exact Hsub|exact Hrec]).
    all: unfold_recorder; unfold Recorder.timer_ok; simpl.
    all: try (destruct (truthy maxD); simpl).
    all: try (rewrite Hidle by discriminate).
    all: destruct tr; simpl; split; try set_solver.
  - split; [exact Hsub|exact Hrec].
  - cbn [Recorder.handle]. unfold when. cbn [Recorder.intervals].
    destruct (bool_decide (id ∈ iv)); [|split; [exact Hsub|exact Hrec]].
    unfold Recorder.startTimer_tick, when, seq.
    destruct (truthy maxD && _); (split; simpl; [exact Hsub|exact Hrec]).
  - split; [exact Hsub|exact Hrec].
  - unfold Recorder.timer_ok; destruct tr; simpl; split; set_solver.
Qed.

Lemma Recorder_timer_discipline maxD (evs : list Recorder.Event) :
  forallb Recorder.capture_event evs = true →
  Recorder.timer_ok (run (Recorder.step maxD) evs Recorder.mounted).1.
Proof.
  assert (H0 : Recorder.timer_ok Recorder.mounted) by (split; done).
  revert H0. generalize Recorder.mounted as s.
  induction evs as [|e evs IH]; intros s Hs Hev; [exact Hs|].
  simpl in Hev. apply andb_true_iff in Hev as [He Hev].
  rewrite run_cons. cbn [fst]. apply IH; [|exact Hev].
  by apply Recorder_timer_step.
Qed.

(** The cleanup of the mount effect destroys WaveSurfer and nothing else. *)
Lemma Recorder_cleanup_keeps_state (s : Recorder.St) :
  Recorder.effect_cleanup s = (s, [Recorder.ws_destroy]).
Proof. reflexivity. Qed.

(** C6 on Recorder.  Unmounting while recording without a limit: the
    cleanup only destroys WaveSurfer, so interval 0, started by the record
    button, is still set afterwards. *)
Theorem Recorder_unmount_keeps_interval :
  let s := (Recorder.step None (Recorder.Click Recorder.RecordButton)
              Recorder.mounted).1 in
  let r := Recorder.effect_cleanup s in
  Recorder.session s = Recording ∧
  Recorder.intervals s = {[0%nat]} ∧
  r.2 = [Recorder.ws_destroy] ∧
  Recorder.intervals r.1 = {[0%nat]}.
Proof. vm_compute. repeat split. Qed.

(* ===================================================================== *)
(** * Further properties of the two components *)
(* ===================================================================== *)

(** ** formatTime on fractional times *)

(** In exact arithmetic; the code agrees wherever its doubles are exact. *)

Lemma Qfloor_div_60 (q : Q) : Qfloor (q / 60) = Qfloor q / 60.
Proof.
  destruct q as [n d]. unfold Qdiv, Qmult, Qinv, Qfloor. simpl.
  rewrite Z.mul_1_r, Pos2Z.inj_mul, Z.div_div by lia. reflexivity.
Qed.

Lemma js_rem_60_floor (q : Q) :
  (0 <= q)%Q → Qfloor (js_rem q 60) = Qfloor q mod 60.
Proof.
  intros Hq. unfold js_rem, Qtrunc.
  assert (Hle : Qle_bool 0 (q / 60) = true).
  { apply Qle_bool_iff. apply Qle_shift_div_l; [reflexivity|].
    rewrite Qmult_0_l. exact Hq. }
  rewrite Hle, Qfloor_div_60.
  destruct q as [n d]. unfold Qminus, Qplus, Qopp, Qmult, inject_Z, Qfloor.
  simpl. set (k := n / Z.pos d / 60).
  rewrite !Pos.mul_1_r, ?Z.mul_1_r.
  rewrite Z.div_add by lia.
  rewrite Z.mod_eq by lia. subst k. lia.
Qed.

Lemma AudioRecorderApp_formatTime_floor (q : Q) :
  (0 <= q)%Q → AudioRecorderApp.formatTime q = minutes_seconds (Qfloor q).
Proof.
  intros Hq. unfold AudioRecorderApp.formatTime, minutes_seconds.
  rewrite Qfloor_div_60, js_rem_60_floor by exact Hq.
  assert (Hr : 0 ≤ Qfloor q mod 60 < 60) by (apply Z.mod_pos_bound; lia).
  rewrite <- two_digits_render by lia.
  destruct (Qfloor q mod 60 <? 10); reflexivity.
Qed.

Lemma Qfloor_nonneg (q : Q) : (0 <= q)%Q → 0 ≤ Qfloor q.
Proof.
  intros Hq. change 0 with (Qfloor 0). by apply Qfloor_resp_le.
Qed.

(** ** Balance of timeouts, starts and errors *)

Lemma count_app {A : Type} (p : A → bool) (l1 l2 : list A) :
  count p (l1 ++ l2) = (count p l1 + count p l2)%nat.
Proof. unfold count. rewrite List.filter_app, length_app. reflexivity. Qed.

(** One step keeps the plugin ref and the balance of timeouts. *)
Lemma AudioRecorderApp_timeout_step its (e : AudioRecorderApp.Event)
    (s : AudioRecorderApp.St) :
  AudioRecorderApp.recordPluginRef s = true →
  let r := AudioRecorderApp.step its e s in
  AudioRecorderApp.recordPluginRef r.1 = true ∧
  (count AudioRecorderApp.is_stop r.2 + AudioRecorderApp.pendingTimeouts r.1
   = count AudioRecorderApp.is_setTimeout r.2 + AudioRecorderApp.pendingTimeouts s)%nat.
Proof.
  destruct s as [st d ct m u p w r a t]; simpl; intros ->.
  destruct e as [|c| | | |time| | | | |].
  - destruct w; split; reflexivity.
  - destruct c as [| | | | | | |m']; destruct st, w; try (split; reflexivity);
      try (app_query its; split; reflexivity).
    all: destruct m, m'; split; reflexivity.
  - destruct a; split; reflexivity.
  - destruct a; split; reflexivity.
  - destruct t; split; simpl; try reflexivity; lia.
  - unfold AudioRecorderApp.step, AudioRecorderApp.on_record_progress, when, seq.
    simpl. destruct m, (Qle_bool _ _); split; simpl; try reflexivity; lia.
  - split; reflexivity.
  - split; reflexivity.
  - split; reflexivity.
  - split; reflexivity.
  - split; reflexivity.
Qed.

Lemma AudioRecorderApp_timeout_run its evs (s : AudioRecorderApp.St) :
  AudioRecorderApp.recordPluginRef s = true →
  let r := run (AudioRecorderApp.step its) evs s in
  AudioRecorderApp.recordPluginRef r.1 = true ∧
  (count AudioRecorderApp.is_stop r.2 + AudioRecorderApp.pendingTimeouts r.1
   = count AudioRecorderApp.is_setTimeout r.2 + AudioRecorderApp.pendingTimeouts s)%nat.
Proof.
  revert s. induction evs as [|e evs IH]; intros s Hs; [split; [exact Hs|reflexivity]|].
  cbv zeta. rewrite run_cons. cbn [fst snd].
  destruct (AudioRecorderApp_timeout_step its e s Hs) as [H1 H2].
  destruct (IH _ H1) as [H3 H4]. cbv zeta in *.
  split; [exact H3|]. rewrite !count_app. lia.
Qed.

(** X2.  In every run of the mounted AudioRecorderApp, the scheduled
    finalize callbacks are exactly those that have stopped the plugin plus
    those still pending: the plugin is never stopped without a timeout
    having been scheduled, and every callback that runs stops it. *)
Theorem stops_balance_timeouts its (evs : list AudioRecorderApp.Event) :
  let r := run (AudioRecorderApp.step its) evs AudioRecorderApp.mounted in
  (count AudioRecorderApp.is_stop r.2 + AudioRecorderApp.pendingTimeouts r.1
   = count AudioRecorderApp.is_setTimeout r.2)%nat.
Proof.
  cbv zeta.
  destruct (AudioRecorderApp_timeout_run its evs AudioRecorderApp.mounted eq_refl)
    as [_ H]. cbv zeta in H. rewrite H. simpl. lia.
Qed.

Lemma AudioRecorderApp_error_step its (e : AudioRecorderApp.Event)
    (s : AudioRecorderApp.St) :
  let r := AudioRecorderApp.step its e s in
  (count AudioRecorderApp.is_error r.2 + AudioRecorderApp.awaitingStart r.1
   ≤ count AudioRecorderApp.is_record_click [e]
     + AudioRecorderApp.awaitingStart s)%nat.
Proof.
  destruct s as [st d ct m u p w r a t]; unfold count; simpl.
  destruct e as [|c| | | |time| | | | |].
  - destruct w; simpl; lia.
  - destruct c as [| | | | | | |m']; destruct st, w, r; try (simpl; lia);
      try (app_query its; lia).
    all: destruct m, m'; simpl; lia.
  - destruct a; simpl; lia.
  - destruct a; simpl; lia.
  - destruct t, r; simpl; lia.
  - unfold AudioRecorderApp.step, AudioRecorderApp.on_record_progress, when, seq.
    simpl. destruct m, (Qle_bool _ _), r; simpl; lia.
  - simpl; lia.
  - simpl; lia.
  - simpl; lia.
  - simpl; lia.
  - simpl; lia.
Qed.

Lemma AudioRecorderApp_error_run its evs (s : AudioRecorderApp.St) :
  let r := run (AudioRecorderApp.step its) evs s in
  (count AudioRecorderApp.is_error r.2 + AudioRecorderApp.awaitingStart r.1
   ≤ count AudioRecorderApp.is_record_click evs
     + AudioRecorderApp.awaitingStart s)%nat.
Proof.
  revert s. induction evs as [|e evs IH]; intros s; [simpl; lia|].
  cbv zeta. rewrite run_cons. cbn [fst snd]. rewrite !count_app.
  change (e :: evs) with ([e] ++ evs). rewrite count_app.
  pose proof (AudioRecorderApp_error_step its e s) as H1.
  pose proof (IH (AudioRecorderApp.step its e s).1) as H2.
  cbv zeta in H1, H2. lia.
Qed.

(** X3.  In every run of the mounted AudioRecorderApp, whether
    [MediaRecorder.isTypeSupported] returns or throws, the errors logged plus
    the starts still awaited never exceed the clicks on the record button: at
    most one error per attempt to start, none without one. *)
Theorem errors_bounded_by_starts its (evs : list AudioRecorderApp.Event) :
  let r := run (AudioRecorderApp.step its) evs AudioRecorderApp.mounted in
  (count AudioRecorderApp.is_error r.2 + AudioRecorderApp.awaitingStart r.1
   ≤ count AudioRecorderApp.is_record_click evs)%nat.
Proof.
  pose proof (AudioRecorderApp_error_run its evs AudioRecorderApp.mounted) as H.
  cbv zeta in *. simpl AudioRecorderApp.awaitingStart in H at 2. lia.
Qed.

Lemma AudioRecorderApp_url_step its (e : AudioRecorderApp.Event)
    (s : AudioRecorderApp.St) :
  AudioRecorderApp.is_record_end e = false →
  AudioRecorderApp.recordedUrl s = None →
  AudioRecorderApp.recordedUrl (AudioRecorderApp.step its e s).1 = None.
Proof.
  destruct s as [st d ct m u p w r a t]; simpl; intros He ->.
  destruct e as [|c| | | |time| | | | |]; try discriminate He.
  - destruct w; reflexivity.
  - destruct c as [| | | | | | |m']; destruct st, w, r; try reflexivity;
      try (app_query its; reflexivity).
    all: destruct m, m'; reflexivity.
  - destruct a; reflexivity.
  - destruct a; reflexivity.
  - destruct t, r; reflexivity.
  - unfold AudioRecorderApp.step, AudioRecorderApp.on_record_progress, when, seq.
    simpl. destruct m, (Qle_bool _ _), r; reflexivity.
  - reflexivity.
  - reflexivity.
  - reflexivity.
  - reflexivity.
Qed.

(** X4.  In AudioRecorderApp only a record-end notification produces the
    artifact: after any run from mount without one, [recordedUrl] is null. *)
Theorem artifact_only_from_record_end its (evs : list AudioRecorderApp.Event) :
  existsb AudioRecorderApp.is_record_end evs = false →
  AudioRecorderApp.recordedUrl
    (run (AudioRecorderApp.step its) evs AudioRecorderApp.mounted).1 = None.
Proof.
  assert (H0 : AudioRecorderApp.recordedUrl AudioRecorderApp.mounted = None)
    by reflexivity.
  revert H0. generalize AudioRecorderApp.mounted as s.
  induction evs as [|e evs IH]; intros s Hs Hev; [exact Hs|].
  simpl in Hev. apply orb_false_iff in Hev as [He Hev].
  rewrite run_cons. cbn [fst]. apply IH; [|exact Hev].
  by apply AudioRecorderApp_url_step.
Qed.

(** X4 on a run that starts and stops without a record-end. *)
Lemma artifact_only_from_record_end_witness :
  let evs := [AudioRecorderApp.Click AudioRecorderApp.RecordButton;
              AudioRecorderApp.StartFulfilled;
              AudioRecorderApp.Click AudioRecorderApp.StopButton;
              AudioRecorderApp.TimeoutFired] in
  existsb AudioRecorderApp.is_record_end evs = false ∧
  AudioRecorderApp.recordedUrl
    (run (AudioRecorderApp.step (λ _, AudioRecorderApp.Returns true)) evs AudioRecorderApp.mounted).1
  = None.
Proof.
  intros evs. split; [reflexivity|].
  exact (artifact_only_from_record_end (λ _, AudioRecorderApp.Returns true) evs eq_refl).
Defined.

(** ** More of AudioRecorderApp *)

Import AudioRecorderApp.

(** X5.  A run of progress notifications schedules one finalize callback
    per notification at or past 30 s in the limited mode and none in the
    unlimited mode, whatever the times; it changes neither the recorder
    state nor the artifact. *)
Theorem progress_schedules_per_notification its (times : list Q) (s : St) :
  recordPluginRef s = true →
  let r := run (step its) (map RecordProgress times) s in
  let n := match mode s with
           | LIMITED => count reaches_limit times
           | UNLIMITED => 0%nat
           end in
  r.2 = replicate n (window_setTimeout 100) ∧
  pendingTimeouts r.1 = (pendingTimeouts s + n)%nat ∧
  recorderState r.1 = recorderState s ∧
  recordedUrl r.1 = recordedUrl s.
Proof.
  revert s. induction times as [|time times IH]; intros s Hs.
  - cbv zeta. unfold count. simpl. destruct (mode s); repeat split; simpl; lia.
  - cbv zeta. cbn [map]. rewrite run_cons. cbn [fst snd].
    destruct s as [st d ct m u p w r a t]; simpl in Hs; subst r.
    cbn [step]. unfold on_record_progress, when, seq. cbn [set fst snd mode setDuration].
    destruct m.
    + cbn [mode_eqb andb]. unfold count. cbn [List.filter].
      fold (reaches_limit time). destruct (reaches_limit time) eqn:Hl.
      * match goal with |- context [run _ _ ?s1] =>
          destruct (IH s1 eq_refl) as (H1 & H2 & H3 & H4) end.
        cbv zeta in *. simpl in *. unfold count in *.
        rewrite H1, H2, H3, H4. repeat split. lia.
      * match goal with |- context [run _ _ ?s1] =>
          destruct (IH s1 eq_refl) as (H1 & H2 & H3 & H4) end.
        cbv zeta in *. simpl in *. unfold count in *.
        rewrite H1, H2, H3, H4. repeat split.
    + cbn [mode_eqb andb].
      match goal with |- context [run _ _ ?s1] =>
        destruct (IH s1 eq_refl) as (H1 & H2 & H3 & H4) end.
      cbv zeta in *. simpl in *.
      rewrite H1, H2, H3, H4. repeat split.
Qed.

(** X5 in the unlimited mode, one minute in. *)
Lemma progress_schedules_per_notification_witness :
  let s := (run (step (λ _, AudioRecorderApp.Returns true))
              [Click (ModeRadio UNLIMITED); Click RecordButton; StartFulfilled]
              mounted).1 in
  recordPluginRef s = true ∧
  (run (step (λ _, AudioRecorderApp.Returns true)) (map RecordProgress [30000; 60000]%Q) s).2 = [].
Proof.
  intros s. split; [reflexivity|].
  exact (proj1 (progress_schedules_per_notification (λ _, AudioRecorderApp.Returns true)
                  [30000; 60000]%Q s eq_refl)).
Defined.

(** X6.  Deleting while recording forwards nothing to the plugin, so the
    capture goes on: in the limited mode the next progress notification at
    or past 30 s still schedules the finalize callback, and the deleted
    session goes from Idle to Finished, without an artifact. *)
Theorem delete_leaves_capture_running its (time : Q) (s : St) :
  recorderState s = recording →
  mode s = LIMITED →
  recordPluginRef s = true →
  (30000 <= time)%Q →
  let r := run (step its)
             [Click DeleteButton; RecordProgress time; TimeoutFired] s in
  existsb to_plugin (step its (Click DeleteButton) s).2 = false ∧
  session (step its (Click DeleteButton) s).1 = Idle ∧
  session r.1 = Finished ∧
  duration r.1 = (time / 1000)%Q ∧
  recordedUrl r.1 = None.
Proof.
  intros Hst Hm Hr Ht.
  assert (Hle : Qle_bool maxDuration (time / 1000) = true).
  { apply Qle_bool_iff. unfold maxDuration.
    apply Qle_shift_div_l; [reflexivity|]. exact Ht. }
  destruct s as [st d ct m u p w r a t]; simpl in Hst, Hm, Hr; subst st m r.
  unfold run, step, click, onClick, deleteRecording, on_record_progress, when, seq.
  destruct w; simpl; rewrite Hle; simpl; repeat split.
Qed.

(** X6 after a start, with progress at 31 s. *)
Lemma delete_leaves_capture_running_witness :
  let s := exec true (blob 0) mounted start in
  (recorderState s = recording ∧ mode s = LIMITED ∧
   recordPluginRef s = true ∧ (30000 <= 31000)%Q) ∧
  session (run (step (λ _, AudioRecorderApp.Returns true))
             [Click DeleteButton; RecordProgress 31000; TimeoutFired] s).1
  = Finished.
Proof.
  intros s. split; [repeat split; discriminate|].
  exact (proj1 (proj2 (proj2
    (delete_leaves_capture_running (λ _, AudioRecorderApp.Returns true) 31000 s
       eq_refl eq_refl eq_refl ltac:(discriminate))))).
Defined.

(** X7.  A finalize callback scheduled by the stop button is not cancelled
    by the delete button: stop, delete, then the timeout leaves the session
    Finished with elapsed time 0 and no artifact, and stops the plugin. *)
Theorem pending_stop_outlives_delete its (s : St) :
  recorderState s = recording →
  recordPluginRef s = true →
  let r := run (step its)
             [Click StopButton; Click DeleteButton; TimeoutFired] s in
  session r.1 = Finished ∧
  duration r.1 = 0%Q ∧
  recordedUrl r.1 = None ∧
  count is_stop r.2 = 1%nat ∧
  pendingTimeouts r.1 = pendingTimeouts s.
Proof.
  intros Hst Hr.
  destruct s as [st d ct m u p w r a t]; simpl in Hst, Hr; subst st r.
  destruct w; repeat split.
Qed.

(** X7 after a start. *)
Lemma pending_stop_outlives_delete_witness :
  let s := exec true (blob 0) mounted start in
  (recorderState s = recording ∧ recordPluginRef s = true) ∧
  session (run (step (λ _, AudioRecorderApp.Returns true))
             [Click StopButton; Click DeleteButton; TimeoutFired] s).1
  = Finished.
Proof.
  intros s. split; [split; reflexivity|].
  exact (proj1 (pending_stop_outlives_delete (λ _, AudioRecorderApp.Returns true) s eq_refl eq_refl)).
Defined.

(** X8.  Selecting the other mode resets the session and rebuilds
    WaveSurfer: the old instance is emptied and destroyed (by the cleanup and
    again by the effect) before the new one is created for the new mode;
    callbacks and starts still pending are kept.  The checked radio does
    nothing. *)
Theorem mode_switch_rebuilds its (m : Mode) (s : St) :
  wavesurferRef s = true →
  m ≠ mode s →
  let r := click its (ModeRadio m) s in
  r.2 = [ws_empty; ws_destroy; ws_destroy; ws_create m] ∧
  mode r.1 = m ∧
  session r.1 = Idle ∧
  duration r.1 = 0%Q ∧
  recordedUrl r.1 = None ∧
  recordPluginRef r.1 = true ∧
  pendingTimeouts r.1 = pendingTimeouts s ∧
  awaitingStart r.1 = awaitingStart s ∧
  click its (ModeRadio (mode s)) s = (s, []).
Proof.
  intros Hw Hm.
  destruct s as [st d ct m' u p w r a t]; simpl in Hw, Hm; subst w.
  destruct m, m'; try contradiction; repeat split.
Qed.

(** X8 while recording in the limited mode. *)
Lemma mode_switch_rebuilds_witness :
  let s := exec true (blob 0) mounted start in
  (wavesurferRef s = true ∧ UNLIMITED ≠ mode s) ∧
  (click (λ _, AudioRecorderApp.Returns true) (ModeRadio UNLIMITED) s).2
  = [ws_empty; ws_destroy; ws_destroy; ws_create UNLIMITED].
Proof.
  intros s.
  assert (Hm : UNLIMITED ≠ mode s) by discriminate.
  split; [split; [reflexivity | exact Hm]|].
  exact (proj1 (mode_switch_rebuilds (λ _, AudioRecorderApp.Returns true) UNLIMITED s eq_refl Hm)).
Defined.

(** X9.  Where [MediaRecorder.isTypeSupported] returns, a second click on
    the record button while the first start is still awaited is not rejected: the plugin is started twice, and the
    second fulfilment resets the elapsed time to 0 in mid-recording. *)
Theorem second_start_not_rejected its supported (time : Q) (s : St) :
  its "audio/webm" = Returns supported →
  recorderState s = idle →
  recordPluginRef s = true →
  let r := run (step its)
             [Click RecordButton; Click RecordButton; StartFulfilled;
              RecordProgress time; StartFulfilled] s in
  count is_start r.2 = 2%nat ∧
  session r.1 = Recording ∧
  duration r.1 = 0%Q ∧
  awaitingStart r.1 = awaitingStart s.
Proof.
  intros Hits Hst Hr.
  destruct s as [st d ct m u p w r a t]; simpl in Hst, Hr; subst st r.
  unfold run, step, click, onClick, startRecording, on_record_progress,
    when, seq. simpl. rewrite Hits. simpl.
  destruct m; simpl; [destruct (Qle_bool _ _)|]; simpl; repeat split.
Qed.

(** X9 from mount, with progress at 4 s in between. *)
Lemma second_start_not_rejected_witness :
  (recorderState mounted = idle ∧ recordPluginRef mounted = true) ∧
  duration (run (step (λ _, AudioRecorderApp.Returns true))
              [Click RecordButton; Click RecordButton; StartFulfilled;
               RecordProgress 4000; StartFulfilled] mounted).1 = 0%Q.
Proof.
  split; [split; reflexivity|].
  exact (proj1 (proj2 (proj2
    (second_start_not_rejected (λ _, Returns true) true 4000 mounted
       eq_refl eq_refl eq_refl)))).
Defined.

(** X10.  In the limited mode the progress bar, rendered whenever the
    session is not idle, reaches 100 percent exactly when the notification
    meets the test that schedules the automatic stop. *)
Theorem progress_bar_full_at_limit its (time : Q) (s : St) :
  mode s = LIMITED →
  recorderState s ≠ idle →
  ∃ w, progress_bar (step its (RecordProgress time) s).1 = Some w ∧
       Qle_bool 100 w = reaches_limit time.
Proof.
  intros Hm Hst.
  destruct s as [st d ct m u p w r a t]; simpl in Hm, Hst; subst m.
  exists (time / 1000 / maxDuration * 100)%Q. split.
  - unfold step, on_record_progress, when, seq. simpl.
    destruct (Qle_bool _ _), r, st; try contradiction; reflexivity.
  - unfold reaches_limit, maxDuration. apply eq_true_iff_eq.
    rewrite !Qle_bool_iff. destruct time as [n dn].
    unfold Qle, Qdiv, Qmult, Qinv. simpl. rewrite !Pos2Z.inj_mul. lia.
Qed.

(** X10 at 15 s: the bar is below 100 percent. *)
Lemma progress_bar_full_at_limit_witness :
  let s := exec true (blob 0) mounted start in
  (mode s = LIMITED ∧ recorderState s ≠ idle) ∧
  ∃ w, progress_bar (step (λ _, AudioRecorderApp.Returns true) (RecordProgress 15000) s).1 = Some w ∧
       Qle_bool 100 w = false.
Proof.
  intros s.
  assert (Hst : recorderState s ≠ idle) by discriminate.
  split; [split; [reflexivity | exact Hst]|].
  exact (progress_bar_full_at_limit (λ _, AudioRecorderApp.Returns true) 15000 s eq_refl Hst).
Defined.

Lemma AudioRecorderApp_nonneg_step its (e : Event) (s : St) :
  nonneg_event e = true →
  (0 <= duration s)%Q ∧ (0 <= currentTime s)%Q →
  (0 <= duration (step its e s).1)%Q ∧ (0 <= currentTime (step its e s).1)%Q.
Proof.
  destruct s as [st d ct m u p w r a t]; simpl; intros He [Hd Hc].
  assert (H0 : (0 <= 0)%Q) by discriminate.
  destruct e as [|c| | | |time| |time| | |].
  - destruct w; split; assumption.
  - destruct c as [| | | | | | |m']; destruct st, w, r; try (split; assumption);
      try (app_query its; split; assumption).
    all: destruct m, m'; split; assumption.
  - destruct a; split; assumption.
  - destruct a; split; assumption.
  - destruct t, r; split; assumption.
  - simpl in He. apply Qle_bool_iff in He.
    assert (Hq : (0 <= time / 1000)%Q).
    { apply Qle_shift_div_l; [reflexivity|]. rewrite Qmult_0_l. exact He. }
    unfold step, on_record_progress, when, seq. simpl.
    destruct m, (Qle_bool _ _), r; split; assumption.
  - split; assumption.
  - simpl in He. apply Qle_bool_iff in He. split; assumption.
  - split; assumption.
  - split; assumption.
  - split; assumption.
Qed.

Lemma AudioRecorderApp_nonneg_run its evs (s : St) :
  forallb nonneg_event evs = true →
  (0 <= duration s)%Q ∧ (0 <= currentTime s)%Q →
  (0 <= duration (run (step its) evs s).1)%Q ∧
  (0 <= currentTime (run (step its) evs s).1)%Q.
Proof.
  revert s. induction evs as [|e evs IH]; intros s Hev Hs; [exact Hs|].
  simpl in Hev. apply andb_true_iff in Hev as [He Hev].
  rewrite run_cons. cbn [fst]. apply IH; [exact Hev|].
  by apply AudioRecorderApp_nonneg_step.
Qed.

(** X11.  As long as the plugin and the view report non-negative times,
    the left timer of AudioRecorderApp always reads m:ss for a whole,
    non-negative number of seconds. *)
Theorem timer_left_well_formed its (evs : list Event) :
  forallb nonneg_event evs = true →
  ∃ v : Z, 0 ≤ v ∧
    timer_left (run (step its) evs mounted).1 = minutes_seconds v.
Proof.
  intros Hev.
  destruct (AudioRecorderApp_nonneg_run its evs mounted Hev) as [Hd Hc];
    [split; discriminate|].
  unfold timer_left.
  destruct (recorderState _).
  1-3: exists (Qfloor (duration (run (step its) evs mounted).1)).
  4: exists (Qfloor (currentTime (run (step its) evs mounted).1)).
  all: split; [by apply Qfloor_nonneg | by apply AudioRecorderApp_formatTime_floor].
Qed.

(** X11 at 65.5 s of recording. *)
Lemma timer_left_well_formed_witness :
  let evs := [Click RecordButton; StartFulfilled; RecordProgress 65500] in
  forallb nonneg_event evs = true ∧
  ∃ v : Z, 0 ≤ v ∧
    timer_left (run (step (λ _, AudioRecorderApp.Returns true)) evs mounted).1 = minutes_seconds v.
Proof.
  intros evs. split; [reflexivity|].
  exact (timer_left_well_formed (λ _, AudioRecorderApp.Returns true) evs eq_refl).
Defined.

(** ** More of Recorder *)

Import Recorder.

Ltac recorder_cases maxD :=
  unfold step, handle, click, onClick, startRecording, resumeRecording,
    startTimer_tick, when, seq; simpl;
  try destruct (truthy maxD); simpl.

Lemma Recorder_modeRef_step maxD (e : Event) (s : St) :
  modeRef s = mode s → modeRef (step maxD e s).1 = mode (step maxD e s).1.
Proof.
  rewrite ?Recorder_step_fst.
  destruct s as [m mr b t pt tr iv ni il]; simpl; intros ->.
  destruct e as [c| |id|ct|rb| |ct|].
  - destruct c, m, tr; try reflexivity; recorder_cases maxD; reflexivity.
  - reflexivity.
  - cbn [handle]. unfold when. cbn [intervals].
    destruct (bool_decide _); [|reflexivity].
    unfold startTimer_tick, when, seq. destruct (truthy maxD && _); reflexivity.
  - reflexivity.
  - destruct tr; reflexivity.
  - destruct il; reflexivity.
  - destruct m; reflexivity.
  - reflexivity.
Qed.

(** X12.  [modeRef] mirrors [mode]: after any run from mount the ref read
    by the audioprocess handler holds the mode of the state. *)
Theorem modeRef_mirrors_mode maxD (evs : list Event) :
  let s := (run (step maxD) evs mounted).1 in
  modeRef s = mode s.
Proof.
  cbv zeta.
  assert (H0 : modeRef mounted = mode mounted) by reflexivity.
  revert H0. generalize mounted as s.
  induction evs as [|e evs IH]; intros s Hs; [exact Hs|].
  rewrite run_cons. cbn [fst]. apply IH. by apply Recorder_modeRef_step.
Qed.

Lemma Recorder_listeners_step maxD (e : Event) (s : St) :
  interactionListeners (step maxD e s).1
  = (interactionListeners s + count is_record_end [e])%nat.
Proof.
  rewrite ?Recorder_step_fst.
  destruct s as [m mr b t pt tr iv ni il]; unfold count.
  destruct e as [c| |id|ct|rb| |ct|].
  - destruct c, m, tr; simpl; try lia; recorder_cases maxD; lia.
  - simpl; lia.
  - cbn [handle]. unfold when. cbn [intervals].
    destruct (bool_decide _); [|simpl; lia].
    unfold startTimer_tick, when, seq. destruct (truthy maxD && _); simpl; lia.
  - simpl; lia.
  - destruct tr; simpl; lia.
  - destruct il; simpl; lia.
  - destruct mr; simpl; lia.
  - simpl; lia.
Qed.

Lemma filter_play_replicate (n : nat) :
  List.filter is_play (replicate n ws_play) = replicate n ws_play.
Proof. induction n as [|n IH]; [reflexivity|]. simpl. by rewrite IH. Qed.

Lemma filter_play_mode_effect (before after : Mode) :
  List.filter is_play (mode_effect before after) = [].
Proof.
  unfold mode_effect. destruct (mode_eqb before after); [reflexivity|].
  destruct after; reflexivity.
Qed.

(** X13.  Interaction listeners are added by every record-end and never
    removed: after a run from mount there is one per record-end received, and
    one interaction makes each of them call [ws.play()]. *)
Theorem interaction_listeners_accumulate maxD (evs : list Event) :
  let s := (run (step maxD) evs mounted).1 in
  interactionListeners s = count is_record_end evs ∧
  List.filter is_play (step maxD Interaction s).2
  = replicate (count is_record_end evs) ws_play.
Proof.
  cbv zeta.
  assert (H : ∀ s, interactionListeners (run (step maxD) evs s).1
                   = (interactionListeners s + count is_record_end evs)%nat).
  { induction evs as [|e evs IH]; intros s; [unfold count; simpl; lia|].
    rewrite run_cons. cbn [fst]. rewrite IH, Recorder_listeners_step.
    change (e :: evs) with ([e] ++ evs). rewrite count_app. lia. }
  specialize (H mounted).
  change (interactionListeners mounted) with 0%nat in H.
  rewrite Nat.add_0_l in H. split; [exact H|].
  rewrite Recorder_step_snd, List.filter_app, filter_play_mode_effect, app_nil_r.
  cbn [handle]. unfold on_interaction. cbn [snd]. rewrite H.
  apply filter_play_replicate.
Qed.

(** X14.  Without a limit ([maxDuration] null or 0), n ticks of a set
    interval add exactly n seconds and forward nothing; the mode and the
    intervals are unchanged. *)
Theorem ticks_count_seconds maxD (n : nat) (id : nat) (s : St) :
  truthy maxD = false →
  id ∈ intervals s →
  let r := run (step maxD) (replicate n (IntervalFired id)) s in
  time r.1 = time s + Z.of_nat n ∧
  r.2 = [] ∧
  mode r.1 = mode s ∧
  intervals r.1 = intervals s.
Proof.
  intros Ht. revert s. induction n as [|n IH]; intros s Hid.
  - cbv zeta. simpl. repeat split. lia.
  - cbv zeta. cbn [replicate]. rewrite run_cons. cbn [fst snd].
    assert (Hh : handle maxD (IntervalFired id) s = (setTime (time s + 1) s, [])).
    { cbn [handle]. unfold when. rewrite bool_decide_eq_true_2 by exact Hid.
      unfold startTimer_tick, when, seq. rewrite Ht. reflexivity. }
    assert (Hstep : step maxD (IntervalFired id) s = (setTime (time s + 1) s, [])).
    { rewrite Recorder_step_same by (rewrite Hh; reflexivity). exact Hh. }
    rewrite Hstep. cbn [fst snd].
    destruct (IH (setTime (time s + 1) s) Hid) as (H1 & H2 & H3 & H4).
    cbv zeta in *. rewrite H1, H2, H3, H4. simpl. repeat split. lia.
Qed.

(** X14 for five ticks after the record button. *)
Lemma ticks_count_seconds_witness :
  let s := (step None (Click RecordButton) mounted).1 in
  (truthy None = false ∧ 0%nat ∈ intervals s) ∧
  time (run (step None) (replicate 5 (IntervalFired 0)) s).1 = 5.
Proof.
  intros s.
  assert (Hid : 0%nat ∈ intervals s)
    by (refine (bool_decide_unpack _ _); vm_compute; exact I).
  split; [split; [reflexivity | exact Hid]|].
  exact (proj1 (ticks_count_seconds None 5 0 s eq_refl Hid)).
Defined.

(** X15.  After any run of clicks, ticks and plugin notifications from
    mount, at most one interval is set, and unless the mode is recording a
    tick of any interval changes nothing: the component's own timer never
    advances the time while paused, stopped or idle. *)
Theorem own_timer_frozen_unless_recording maxD (evs : list Event) (id : nat) :
  forallb capture_event evs = true →
  let s := (run (step maxD) evs mounted).1 in
  (size (intervals s) ≤ 1)%nat ∧
  (mode s ≠ recording → step maxD (IntervalFired id) s = (s, [])).
Proof.
  intros Hev. cbv zeta.
  destruct (Recorder_timer_discipline maxD evs Hev) as [Hsub Hrec].
  split.
  - destruct (timerRef _) as [i|].
    + rewrite <- (size_singleton (C:=gset nat) i).
      by apply subseteq_size.
    + assert (He : intervals (run (step maxD) evs mounted).1 = ∅) by set_solver.
      rewrite He, size_empty. lia.
  - intros Hm.
    rewrite Recorder_step_same; cbn [handle]; unfold when;
      rewrite (Hrec Hm), bool_decide_eq_false_2 by apply not_elem_of_empty;
      reflexivity.
Qed.

(** X15 after record, one tick, pause. *)
Lemma own_timer_frozen_unless_recording_witness :
  let evs := [Click RecordButton; IntervalFired 0; Click PauseButton] in
  let s := (run (step None) evs mounted).1 in
  (forallb capture_event evs = true ∧ mode s ≠ recording) ∧
  step None (IntervalFired 0) s = (s, []).
Proof.
  intros evs s.
  assert (Hm : mode s ≠ recording) by (vm_compute; discriminate).
  split; [split; [reflexivity | exact Hm]|].
  exact (proj2 (own_timer_frozen_unless_recording None evs 0 eq_refl) Hm).
Defined.

(** X16.  The trash button pressed while recording clears the timer but
    forwards nothing to the plugin, so the capture goes on: the session is
    Idle and the next progress notification still sets the elapsed time. *)
Theorem restart_leaves_capture_running maxD (currentTime : Q) (s : St) :
  mode s = recording →
  let r := run (step maxD) [Click TrashButton; RecordProgress currentTime] s in
  existsb to_plugin r.2 = false ∧
  session r.1 = Idle ∧
  time r.1 = Qfloor (currentTime / 1000) ∧
  intervals r.1 = intervals s ∖ from_option singleton ∅ (timerRef s).
Proof.
  intros Hm.
  destruct s as [m mr b t pt tr iv ni il]; simpl in Hm; subst m.
  destruct tr; repeat split. simpl. set_solver.
Qed.

(** X16 with progress at 7.3 s after the trash button. *)
Lemma restart_leaves_capture_running_witness :
  let s := (step None (Click RecordButton) mounted).1 in
  mode s = recording ∧
  time (run (step None) [Click TrashButton; RecordProgress 7300] s).1 = 7.
Proof.
  intros s. split; [reflexivity|].
  exact (proj1 (proj2 (proj2
    (restart_leaves_capture_running None 7300 s eq_refl)))).
Defined.

Lemma Recorder_blob_step maxD (e : Event) (s : St) :
  is_record_end e = false →
  _blob s = None → _blob (step maxD e s).1 = None.
Proof.
  rewrite ?Recorder_step_fst.
  destruct s as [m mr b t pt tr iv ni il]; simpl; intros He ->.
  destruct e as [c| |id|ct|rb| |ct|]; try discriminate He.
  - destruct c, m, tr; try reflexivity; recorder_cases maxD; reflexivity.
  - reflexivity.
  - cbn [handle]. unfold when. cbn [intervals].
    destruct (bool_decide _); [|reflexivity].
    unfold startTimer_tick, when, seq. destruct (truthy maxD && _); reflexivity.
  - reflexivity.
  - destruct il; reflexivity.
  - destruct mr; reflexivity.
  - reflexivity.
Qed.

(** X17.  In Recorder only a record-end notification produces the
    artifact: after any run from mount without one, the blob is null. *)
Theorem blob_only_from_record_end maxD (evs : list Event) :
  existsb is_record_end evs = false →
  _blob (run (step maxD) evs mounted).1 = None.
Proof.
  assert (H0 : _blob mounted = None) by reflexivity.
  revert H0. generalize mounted as s.
  induction evs as [|e evs IH]; intros s Hs Hev; [exact Hs|].
  simpl in Hev. apply orb_false_iff in Hev as [He Hev].
  rewrite run_cons. cbn [fst]. apply IH; [|exact Hev].
  by apply Recorder_blob_step.
Qed.

Lemma count_stop_mode_effect (before after : Mode) :
  count is_stop (mode_effect before after) = 0%nat.
Proof.
  unfold mode_effect. destruct (mode_eqb before after); [reflexivity|].
  destruct after; reflexivity.
Qed.

Lemma Recorder_stop_handle maxD (e : Event) (s : St) :
  truthy maxD = false →
  (count is_stop (handle maxD e s).2 ≤ count is_stop_click [e])%nat.
Proof.
  intros Ht. destruct s as [m mr b t pt tr iv ni il]; unfold count.
  destruct e as [c| |id|ct|rb| |ct|].
  - destruct c, m, tr; simpl; try lia.
    all: unfold handle, click, onClick, startRecording, resumeRecording,
           when, seq; simpl; rewrite Ht; simpl; lia.
  - simpl; lia.
  - cbn [handle]. unfold when. cbn [intervals].
    destruct (bool_decide _); [|simpl; lia].
    unfold startTimer_tick, when, seq. rewrite Ht. simpl. lia.
  - simpl; lia.
  - destruct tr; simpl; lia.
  - cbn [handle]. unfold on_interaction. cbn [snd interactionListeners].
    induction il as [|il IHil]; simpl in *; lia.
  - destruct mr; simpl; lia.
  - simpl; lia.
Qed.

Lemma Recorder_stop_step maxD (e : Event) (s : St) :
  truthy maxD = false →
  (count is_stop (step maxD e s).2 ≤ count is_stop_click [e])%nat.
Proof.
  intros Ht. rewrite Recorder_step_snd, count_app, count_stop_mode_effect.
  pose proof (Recorder_stop_handle maxD e s Ht). lia.
Qed.

(** X18.  Without a limit, Recorder stops the plugin only through the stop
    button: in any run the stops forwarded are at most the clicks on it. *)
Theorem stop_only_by_button_without_limit maxD (evs : list Event) (s : St) :
  truthy maxD = false →
  (count is_stop (run (step maxD) evs s).2 ≤ count is_stop_click evs)%nat.
Proof.
  intros Ht. revert s. induction evs as [|e evs IH]; intros s;
    [unfold count; simpl; lia|].
  rewrite run_cons. cbn [snd]. rewrite count_app.
  change (e :: evs) with ([e] ++ evs). rewrite count_app.
  pose proof (Recorder_stop_step maxD e s Ht).
  pose proof (IH (step maxD e s).1). lia.
Qed.

(** X17 on a run that starts and presses stop without a record-end. *)
Lemma blob_only_from_record_end_witness :
  let evs := [Click RecordButton; RecordProgress 2000; Click StopButton] in
  existsb is_record_end evs = false ∧
  _blob (run (step None) evs mounted).1 = None.
Proof.
  intros evs. split; [reflexivity|].
  exact (blob_only_from_record_end None evs eq_refl).
Defined.

(** X18 with [maxDuration = 0], which counts as no limit. *)
Lemma stop_only_by_button_without_limit_witness :
  let evs := [Click RecordButton; IntervalFired 0; Click StopButton;
              IntervalFired 0] in
  truthy (Some 0%Z) = false ∧
  (count is_stop (run (step (Some 0%Z)) evs mounted).2 ≤ 1)%nat.
Proof.
  intros evs. split; [reflexivity|].
  exact (stop_only_by_button_without_limit (Some 0%Z) evs mounted eq_refl).
Defined.
